(** * Assignment, deletion and release statements of Nuitka's optimizer

    A shallow embedding of [nuitka/nodes/AssignNodes.py]: the statement nodes
    for assignments to variables, attributes, subscripts and slices, for the
    matching [del] statements and for the implicit release of a variable,
    together with their [computeStatement] rewrite rules and their side
    effect and exception predicates.

    The Python methods mutate the statement ([self]), the trace collection
    they are given and, on one path, a variable trace.  Here every method is
    a function that takes the statement and the collection and gives back
    what Python returns together with the statement and the collection as
    they are after the call. *)

From Stdlib Require Import String List Bool Arith Lia.
Import ListNotations.
Open Scope string_scope.

Set Implicit Arguments.
Set Warnings "-register-all".

(** ** Exceptions of the compiled language

    [willRaiseException] and [mayRaiseException] are asked about an
    exception type; the rewrite rules always ask about [BaseException]. *)

Inductive ExceptionType : Type :=
| BaseException
| OtherException (name : string).

(** Source locations of nodes. *)
Definition SourceRef := nat.

(** ** Variables *)

Inductive VariableKind : Type :=
| ModuleVariable
| LocalVariable
| TempVariable
| ClosureVariable.

(** Modelled from the spec: the [Variable] class is not part of this file.
    A variable has a kind, a name (absent for temporaries), an owning scope
    and the two sharing flags. *)
Record PyVariable : Type := mkVariable {
  variable_kind : VariableKind;
  getName : option string;
  getOwner : string;
  isSharedLogically : bool;
  isSharedTechnically : bool
}.

Definition isModuleVariable (v : PyVariable) : bool :=
  match variable_kind v with ModuleVariable => true | _ => false end.

Definition isLocalVariable (v : PyVariable) : bool :=
  match variable_kind v with LocalVariable => true | _ => false end.

Definition isTempVariable (v : PyVariable) : bool :=
  match variable_kind v with TempVariable => true | _ => false end.

Definition VariableKind_eqb (a b : VariableKind) : bool :=
  match a, b with
  | ModuleVariable, ModuleVariable
  | LocalVariable, LocalVariable
  | TempVariable, TempVariable
  | ClosureVariable, ClosureVariable => true
  | _, _ => false
  end.

Definition name_eqb (a b : option string) : bool :=
  match a, b with
  | Some x, Some y => String.eqb x y
  | None, None => true
  | _, _ => false
  end.

(** [source.getVariable() == variable]: two variables are the same when all
    that identifies them agrees. *)
Definition PyVariable_eqb (a b : PyVariable) : bool :=
  VariableKind_eqb (variable_kind a) (variable_kind b)
  && name_eqb (getName a) (getName b)
  && String.eqb (getOwner a) (getOwner b)
  && Bool.eqb (isSharedLogically a) (isSharedLogically b)
  && Bool.eqb (isSharedTechnically a) (isSharedTechnically b).

(** What ["%s" % name] prints. *)
Definition format_name (n : option string) : string :=
  match n with Some s => s | None => "None" end.

(** ** Expressions *)

(** Modelled from the spec: the function body a function creation refers
    to, with the two queries the assignment rule makes. *)
Record FunctionBody : Type := mkFunctionBody {
  isGenerator : bool;
  body_isClassDictCreation : bool
}.

(** Modelled from the spec: the expression nodes live in other files, and
    the statements only use the queries the expression-level analysis
    answers.  An expression is the record of the answers to those queries
    together with its node kind, for the kinds the rules tell apart, and
    the children the rules look at. *)
Inductive ExpressionKind (E : Type) : Type :=
| EXPRESSION_VARIABLE_REF (variable : PyVariable)
| EXPRESSION_SIDE_EFFECTS (side_effects : list E) (expression : E)
| EXPRESSION_FUNCTION_CREATION (function_body : FunctionBody)
                               (defaults : list E)
                               (kw_defaults : option E)
                               (annotations : option E)
| EXPRESSION_OTHER.

Arguments EXPRESSION_VARIABLE_REF {E} variable.
Arguments EXPRESSION_SIDE_EFFECTS {E} side_effects expression.
Arguments EXPRESSION_FUNCTION_CREATION {E} function_body defaults
  kw_defaults annotations.
Arguments EXPRESSION_OTHER {E}.

Inductive Expression : Type := mkExpression {
  willRaiseException : ExceptionType -> bool;
  mayRaiseException : ExceptionType -> bool;
  mayHaveSideEffects : bool;
  isCompileTimeConstant : bool;
  isMutable : bool;
  expression_kind : ExpressionKind Expression
}.

Definition isExpressionVariableRef (e : Expression) : bool :=
  match expression_kind e with EXPRESSION_VARIABLE_REF _ => true | _ => false end.

Definition isExpressionSideEffects (e : Expression) : bool :=
  match expression_kind e with EXPRESSION_SIDE_EFFECTS _ _ => true | _ => false end.

Definition isExpressionFunctionCreation (e : Expression) : bool :=
  match expression_kind e with
  | EXPRESSION_FUNCTION_CREATION _ _ _ _ => true
  | _ => false
  end.

(** [makeClone] gives a structurally equal copy. *)
Definition makeClone (e : Expression) : Expression := e.

(** Python truth of a tuple and of an optional node. *)
Definition truthy_list {A} (l : list A) : bool :=
  match l with [] => false | _ => true end.

Definition truthy_option {A} (o : option A) : bool :=
  match o with None => false | Some _ => true end.

(** ** Variable traces *)

Record Usages : Type := mkUsages {
  getDefiniteUsages : nat;
  getPotentialUsages : nat;
  getNameUsages : nat
}.

Definition no_usages : Usages := mkUsages 0 0 0.

(** Modelled from the spec: the trace classes are not part of this file.
    A trace is [Uninit], [Assigned] with the trace it replaced, [Merged]
    from the traces of the joined branches, or [Released]; each carries the
    counts of the uses recorded for it, and an assignment trace the node
    that is to replace its uses, once one was set. *)
Inductive VariableTrace : Type :=
| Uninit (usages : Usages)
| Assigned (usages : Usages) (replacement : option Expression)
           (previous : VariableTrace)
| Merged (usages : Usages) (branch_traces : list VariableTrace)
| Released (usages : Usages) (previous : VariableTrace).

Definition trace_usages (t : VariableTrace) : Usages :=
  match t with
  | Uninit u | Assigned u _ _ | Merged u _ | Released u _ => u
  end.

Definition isUninitTrace (t : VariableTrace) : bool :=
  match t with Uninit _ => true | _ => false end.

(** [None] where the trace has no single predecessor. *)
Definition getPrevious (t : VariableTrace) : option VariableTrace :=
  match t with
  | Assigned _ _ p | Released _ p => Some p
  | Uninit _ | Merged _ _ => None
  end.

(** A merge has a value only if every branch has one. *)
Fixpoint mustHaveValue (t : VariableTrace) : bool :=
  match t with
  | Uninit _ => false
  | Assigned _ _ _ => true
  | Merged _ branches =>
      (fix all (l : list VariableTrace) : bool :=
         match l with
         | [] => true
         | b :: l' => mustHaveValue b && all l'
         end) branches
  | Released _ _ => false
  end.

Fixpoint mustNotHaveValue (t : VariableTrace) : bool :=
  match t with
  | Uninit _ => true
  | Assigned _ _ _ => false
  | Merged _ branches =>
      (fix all (l : list VariableTrace) : bool :=
         match l with
         | [] => true
         | b :: l' => mustNotHaveValue b && all l'
         end) branches
  | Released _ _ => false
  end.

Definition hasDefiniteUsages (t : VariableTrace) : bool :=
  Nat.ltb 0 (getDefiniteUsages (trace_usages t)).

Definition hasPotentialUsages (t : VariableTrace) : bool :=
  Nat.ltb 0 (getPotentialUsages (trace_usages t)).

Definition hasNameUsages (t : VariableTrace) : bool :=
  Nat.ltb 0 (getNameUsages (trace_usages t)).

(** [setReplacementNode(lambda usage: node.makeClone())], with the node the
    lambda clones. *)
Definition setReplacementNode (t : VariableTrace) (node : Expression)
  : VariableTrace :=
  match t with
  | Assigned u _ p => Assigned u (Some (makeClone node)) p
  | other => other
  end.

(** ** Statement nodes

    One record per statement class of the file, with the children named as
    in [named_children] and the attributes set in [__init__]. *)

(** Modelled from the spec: the target reference of an assignment or
    [del]; its variable is resolved before the optimization runs. *)
Record TargetVariableRef : Type := mkTargetVariableRef {
  getVariableName : string;
  getVariable : PyVariable
}.

(** Modelled from the spec: what [getParentVariableProvider()] of a
    statement answers to the two queries made. *)
Record VariableProvider : Type := mkVariableProvider {
  isUnoptimized : bool;
  isClassDictCreation : bool
}.

Record StatementAssignmentVariable : Type := mkStatementAssignmentVariable {
  av_source : Expression;
  av_variable_ref : TargetVariableRef;
  av_source_ref : SourceRef;
  av_variable_trace : option VariableTrace;
  av_inplace_suspect : option bool;
  av_parent_provider : VariableProvider
}.

Record StatementAssignmentAttribute : Type := mkStatementAssignmentAttribute {
  aa_source : Expression;
  aa_expression : Expression;
  aa_attribute_name : string;
  aa_source_ref : SourceRef
}.

Record StatementAssignmentSubscript : Type := mkStatementAssignmentSubscript {
  as_source : Expression;
  as_expression : Expression;
  as_subscript : Expression;
  as_source_ref : SourceRef
}.

Record StatementAssignmentSlice : Type := mkStatementAssignmentSlice {
  al_source : Expression;
  al_expression : Expression;
  al_lower : option Expression;
  al_upper : option Expression;
  al_source_ref : SourceRef
}.

Record StatementDelVariable : Type := mkStatementDelVariable {
  dv_variable_ref : TargetVariableRef;
  dv_tolerant : bool;
  dv_source_ref : SourceRef;
  dv_variable_trace : option VariableTrace;
  dv_previous_trace : option VariableTrace
}.

Record StatementReleaseVariable : Type := mkStatementReleaseVariable {
  rv_variable : PyVariable;
  rv_source_ref : SourceRef;
  rv_variable_trace : option VariableTrace
}.

Record StatementDelAttribute : Type := mkStatementDelAttribute {
  da_expression : Expression;
  da_attribute_name : string;
  da_source_ref : SourceRef
}.

Record StatementDelSubscript : Type := mkStatementDelSubscript {
  ds_expression : Expression;
  ds_subscript : Expression;
  ds_source_ref : SourceRef
}.

Record StatementDelSlice : Type := mkStatementDelSlice {
  dl_expression : Expression;
  dl_lower : option Expression;
  dl_upper : option Expression;
  dl_source_ref : SourceRef
}.

(** The statements the rules take and give: the nine kinds above, the bare
    evaluation of an expression and the sequence of statements. *)
Inductive Statement : Type :=
| STATEMENT_ASSIGNMENT_VARIABLE (s : StatementAssignmentVariable)
| STATEMENT_ASSIGNMENT_ATTRIBUTE (s : StatementAssignmentAttribute)
| STATEMENT_ASSIGNMENT_SUBSCRIPT (s : StatementAssignmentSubscript)
| STATEMENT_ASSIGNMENT_SLICE (s : StatementAssignmentSlice)
| STATEMENT_DEL_VARIABLE (s : StatementDelVariable)
| STATEMENT_RELEASE_VARIABLE (s : StatementReleaseVariable)
| STATEMENT_DEL_ATTRIBUTE (s : StatementDelAttribute)
| STATEMENT_DEL_SUBSCRIPT (s : StatementDelSubscript)
| STATEMENT_DEL_SLICE (s : StatementDelSlice)
| STATEMENT_EXPRESSION_ONLY (expression : Expression)
| STATEMENTS_SEQUENCE (statements : list Statement).

(** ** What a rule returns *)

Inductive ChangeTag : Type :=
| tag_none
| new_statements
| new_raise.

(** A Python [return a, b, c] gives a triple; a [return node] gives the
    node alone.  In a triple the replacement is [None] or a statement. *)
Inductive ReturnValue : Type :=
| ReturnTriple (replacement : option Statement) (change_tag : ChangeTag)
               (description : option string)
| ReturnNode (node : Statement).

Inductive PyError : Type :=
| AttributeError.

Inductive Outcome (A : Type) : Type :=
| Returned (value : A)
| Raised (error : PyError).

Arguments Returned {A} value.
Arguments Raised {A} error.

(** The return contract of a rule: a triple whose description is present
    and not empty whenever the tag is not [None]. *)
Definition non_empty (d : option string) : bool :=
  match d with
  | Some (String _ _) => true
  | _ => false
  end.

Definition fulfils_return_contract (r : ReturnValue) : bool :=
  match r with
  | ReturnTriple _ tag_none _ => true
  | ReturnTriple _ _ d => non_empty d
  | ReturnNode _ => false
  end.

(** ** Node making helpers *)

(** Modelled from the spec: [NodeMakingHelpers] is not part of this file.
    The replacement for a statement that only evaluates one expression. *)
Definition makeStatementExpressionOnlyReplacementNode
  (expression : Expression) (node : Statement) : Statement :=
  STATEMENT_EXPRESSION_ONLY expression.

(** Modelled from the spec: the plain evaluate-for-effect sequence of the
    expressions given, in their order; a bound that is absent has nothing
    to evaluate. *)
Fixpoint bare_evaluations (expressions : list (option Expression))
  : list Statement :=
  match expressions with
  | [] => []
  | Some e :: rest => STATEMENT_EXPRESSION_ONLY e :: bare_evaluations rest
  | None :: rest => bare_evaluations rest
  end.

Definition makeStatementOnlyNodesFromExpressions
  (expressions : list (option Expression)) : Statement :=
  STATEMENTS_SEQUENCE (bare_evaluations expressions).

(** Modelled from the spec: the sequence that replaces a statement. *)
Definition makeStatementsSequenceReplacementNode
  (statements : list Statement) (node : Statement) : Statement :=
  STATEMENTS_SEQUENCE statements.

(** ** The trace collection *)

(** Modelled from the spec: the collection class is not part of this file.
    It holds the current trace of every variable and the escape flag. *)
Record ConstraintCollection : Type := mkConstraintCollection {
  variable_actives : PyVariable -> VariableTrace;
  escaped : bool
}.

Definition getVariableCurrentTrace (cc : ConstraintCollection)
  (variable : PyVariable) : VariableTrace :=
  variable_actives cc variable.

Definition setVariableCurrentTrace (cc : ConstraintCollection)
  (variable : PyVariable) (t : VariableTrace) : ConstraintCollection :=
  mkConstraintCollection
    (fun v => if PyVariable_eqb v variable then t else variable_actives cc v)
    (escaped cc).

(** Modelled from the spec: a new [Assigned] trace for the target variable
    of the node, chained to the trace that was current; it is returned. *)
Definition onVariableSet (cc : ConstraintCollection)
  (assign_node : StatementAssignmentVariable)
  : VariableTrace * ConstraintCollection :=
  let variable := getVariable (av_variable_ref assign_node) in
  let t := Assigned no_usages None (getVariableCurrentTrace cc variable) in
  (t, setVariableCurrentTrace cc variable t).

(** Modelled from the spec: the variable becomes [Uninit]; the trace that
    was current before the deletion is returned. *)
Definition onVariableDel (cc : ConstraintCollection)
  (del_node : StatementDelVariable)
  : VariableTrace * ConstraintCollection :=
  let variable := getVariable (dv_variable_ref del_node) in
  (getVariableCurrentTrace cc variable,
   setVariableCurrentTrace cc variable (Uninit no_usages)).

(** Modelled from the spec: a release point is recorded and the resulting
    trace returned; a variable that never had a value stays [Uninit]. *)
Definition onVariableRelease (cc : ConstraintCollection)
  (variable : PyVariable) : VariableTrace * ConstraintCollection :=
  let current := getVariableCurrentTrace cc variable in
  if isUninitTrace current then (current, cc)
  else
    let t := Released no_usages current in
    (t, setVariableCurrentTrace cc variable t).

(** The variables whose value code that runs at an escape can reach:
    module variables and shared ones. *)
Definition invalidatedByEscape (v : PyVariable) : bool :=
  isModuleVariable v
  || match variable_kind v with ClosureVariable => true | _ => false end
  || isSharedLogically v
  || isSharedTechnically v.

(** What is known of such a variable after an escape: the join of the
    trace it had and of an assignment made by the code that ran. *)
Definition traceAfterEscape (t : VariableTrace) : VariableTrace :=
  Merged no_usages [t; Assigned no_usages None t].

(** Modelled from the spec: marks that arbitrary code may run here; what
    was known of a module or shared variable cannot be trusted any more,
    and its current trace becomes a merge with an unknown assignment. *)
Definition onControlFlowEscape (cc : ConstraintCollection) (node : Statement)
  : ConstraintCollection :=
  mkConstraintCollection
    (fun v =>
       if invalidatedByEscape v then traceAfterEscape (variable_actives cc v)
       else variable_actives cc v)
    true.

(** ** Options and the variable registry *)

(** Modelled from the spec: the traces of a variable known from the
    previous pass, asked for the one that belongs to an assignment. *)
Record GlobalVariableTrace : Type := mkGlobalVariableTrace {
  getMatchingAssignTrace : StatementAssignmentVariable -> option VariableTrace
}.

(** [Options.isExperimental()] and [VariableRegistry.getGlobalVariableTrace],
    the two pieces of process-wide state the rules read. *)
Record Globals : Type := mkGlobals {
  isExperimental : bool;
  getGlobalVariableTrace : PyVariable -> option GlobalVariableTrace
}.

(** ** The rewrite rules *)

Definition newline : string := String (Ascii.ascii_of_nat 10) EmptyString.

Definition Rule (S : Type) : Type :=
  (Outcome ReturnValue * S * ConstraintCollection)%type.

(** [return self, None, None] *)
Definition unchanged {S : Type} (as_statement : S -> Statement) (self : S)
  (cc : ConstraintCollection) : Rule S :=
  (Returned (ReturnTriple (Some (as_statement self)) tag_none None), self, cc).

Definition setAssignSource (self : StatementAssignmentVariable)
  (source : Expression) : StatementAssignmentVariable :=
  mkStatementAssignmentVariable source (av_variable_ref self)
    (av_source_ref self) (av_variable_trace self) (av_inplace_suspect self)
    (av_parent_provider self).

Definition av_set_variable_trace (self : StatementAssignmentVariable)
  (t : VariableTrace) : StatementAssignmentVariable :=
  mkStatementAssignmentVariable (av_source self) (av_variable_ref self)
    (av_source_ref self) (Some t) (av_inplace_suspect self)
    (av_parent_provider self).

(** [source.isExpressionVariableRef() and source.getVariable() == variable] *)
Definition isReferenceTo (source : Expression) (variable : PyVariable) : bool :=
  match expression_kind source with
  | EXPRESSION_VARIABLE_REF v => PyVariable_eqb v variable
  | _ => false
  end.

(** The test of lines 231 to 236 on the source of an assignment: a function
    creation whose body is neither a generator nor a class dictionary
    creation and that has no defaults, keyword defaults or annotations. *)
Definition isPlainFunctionCreation (source : Expression) : bool :=
  match expression_kind source with
  | EXPRESSION_FUNCTION_CREATION body defaults kw_defaults annotations =>
      negb (isGenerator body)
      && negb (body_isClassDictCreation body)
      && negb (truthy_list defaults)
      && negb (truthy_option kw_defaults)
      && negb (truthy_option annotations)
  | _ => false
  end.

(** Lines 208 to 225, and again 260 to 277: the assignment is dropped, a
    tolerant [del] stays behind unless the variable had no value before. *)
Definition dropAssignment (self : StatementAssignmentVariable)
  (last_trace : VariableTrace) (propagated : bool) : Outcome ReturnValue :=
  match getPrevious last_trace with
  | None => Raised AttributeError
  | Some previous =>
      let result :=
        if negb (isUninitTrace previous) then
          Some (STATEMENT_DEL_VARIABLE
                  (mkStatementDelVariable (av_variable_ref self) true
                     (av_source_ref self) None None))
        else None in
      Returned
        (ReturnTriple result new_statements
           (Some ("Dropped "
                  ++ (if propagated then "propagated" else "dead")
                  ++ " assignment statement to '"
                  ++ getVariableName (av_variable_ref self) ++ "'.")))
  end.

Section Rules.

(** The expression-level analysis, which is not part of this file: it gives
    the expression that replaces the one analysed and may record uses in
    the collection. *)
Variable computeExpression :
  ConstraintCollection -> Expression -> Expression * ConstraintCollection.

Definition onExpression (cc : ConstraintCollection) (expression : Expression)
  : Expression * ConstraintCollection :=
  computeExpression cc expression.

(** [onExpression(expression, allow_none = True)] *)
Definition onExpression_allow_none (cc : ConstraintCollection)
  (expression : option Expression)
  : option Expression * ConstraintCollection :=
  match expression with
  | None => (None, cc)
  | Some e => let '(e', cc') := computeExpression cc e in (Some e', cc')
  end.

Definition StatementAssignmentVariable_mayRaiseException
  (self : StatementAssignmentVariable) (exception_type : ExceptionType) : bool :=
  mayRaiseException (av_source self) exception_type.

Definition StatementAssignmentVariable_computeStatement (g : Globals)
  (self : StatementAssignmentVariable) (cc : ConstraintCollection)
  : Rule StatementAssignmentVariable :=
  let '(source, cc) := onExpression cc (av_source self) in
  let self := setAssignSource self source in
  if willRaiseException source BaseException then
    let result :=
      makeStatementExpressionOnlyReplacementNode source
        (STATEMENT_ASSIGNMENT_VARIABLE self) in
    (Returned
       (ReturnTriple (Some result) new_raise
          (Some "Assignment raises exception in assigned value, removed assignment.")),
     self, cc)
  else
  let variable_ref := av_variable_ref self in
  let variable := getVariable variable_ref in
  if negb (isModuleVariable variable) && isReferenceTo source variable then
    if mayHaveSideEffects source then
      let result :=
        makeStatementExpressionOnlyReplacementNode source
          (STATEMENT_ASSIGNMENT_VARIABLE self) in
      (Returned
         (ReturnTriple (Some result) new_statements
            (Some "Reduced assignment of variable from itself to access of it.")),
       self, cc)
    else
      (Returned
         (ReturnTriple None new_statements
            (Some "Removed assignment of variable from itself which is known to be defined.")),
       self, cc)
  else
  match expression_kind source with
  | EXPRESSION_SIDE_EFFECTS side_effects expression =>
      (* [self] is in the list before its source is updated, and the list
         holds the node itself, so the sequence ends with the updated one *)
      let self' := setAssignSource self expression in
      let statements :=
        (map (fun side_effect =>
                makeStatementExpressionOnlyReplacementNode side_effect
                  (STATEMENT_ASSIGNMENT_VARIABLE self))
             side_effects
         ++ [STATEMENT_ASSIGNMENT_VARIABLE self'])%list in
      let result :=
        makeStatementsSequenceReplacementNode statements
          (STATEMENT_ASSIGNMENT_VARIABLE self) in
      (Returned
         (ReturnTriple (Some result) new_statements
            (Some "Side effects of assignments promoted to statements.")),
       self', cc)
  | _ =>
  let '(variable_trace, cc) := onVariableSet cc self in
  let self := av_set_variable_trace self variable_trace in
  match getGlobalVariableTrace g variable with
  | Some global_trace =>
  if isExperimental g then
    match getMatchingAssignTrace global_trace self with
    | Some last_trace =>
      if isLocalVariable variable || isTempVariable variable then
        if isCompileTimeConstant source then
          if negb (isMutable source) then
            let provider := av_parent_provider self in
            if isTempVariable variable
               || (negb (isUnoptimized provider)
                   && negb (isClassDictCreation provider)) then
              (* the trace of the statement is the current trace of the
                 variable in the collection: both see the replacement *)
              let '(self, cc, propagated) :=
                if hasDefiniteUsages last_trace then
                  let t := setReplacementNode variable_trace source in
                  (av_set_variable_trace self t,
                   setVariableCurrentTrace cc variable t, true)
                else (self, cc, false) in
              if negb (hasPotentialUsages last_trace)
                 && negb (hasNameUsages last_trace) then
                if negb (isSharedLogically variable) then
                  (dropAssignment self last_trace propagated, self, cc)
                else unchanged STATEMENT_ASSIGNMENT_VARIABLE self cc
              else unchanged STATEMENT_ASSIGNMENT_VARIABLE self cc
            else unchanged STATEMENT_ASSIGNMENT_VARIABLE self cc
          else unchanged STATEMENT_ASSIGNMENT_VARIABLE self cc
        else if isExperimental g && isPlainFunctionCreation source then
          let provider := av_parent_provider self in
          if isTempVariable variable
             || (negb (isUnoptimized provider)
                 && negb (isClassDictCreation provider)) then
            if negb (isSharedLogically variable) then
              if (getDefiniteUsages (trace_usages last_trace) <=? 1)%nat
                 && negb (hasPotentialUsages last_trace)
                 && negb (hasNameUsages last_trace) then
                let '(self, cc, propagated) :=
                  if (getDefiniteUsages (trace_usages last_trace) =? 1)%nat then
                    let t := setReplacementNode variable_trace source in
                    (av_set_variable_trace self t,
                     setVariableCurrentTrace cc variable t, true)
                  else (self, cc, false) in
                (dropAssignment self last_trace propagated, self, cc)
              else unchanged STATEMENT_ASSIGNMENT_VARIABLE self cc
            else unchanged STATEMENT_ASSIGNMENT_VARIABLE self cc
          else unchanged STATEMENT_ASSIGNMENT_VARIABLE self cc
        else unchanged STATEMENT_ASSIGNMENT_VARIABLE self cc
      else unchanged STATEMENT_ASSIGNMENT_VARIABLE self cc
    | None => unchanged STATEMENT_ASSIGNMENT_VARIABLE self cc
    end
  else unchanged STATEMENT_ASSIGNMENT_VARIABLE self cc
  | None => unchanged STATEMENT_ASSIGNMENT_VARIABLE self cc
  end
  end.

(** [None] is Python's [None], the answer that nothing is known. *)
Definition StatementAssignmentVariable_needsReleaseValue
  (self : StatementAssignmentVariable) : Outcome (option bool) :=
  match av_variable_trace self with
  | None => Raised AttributeError
  | Some variable_trace =>
      match getPrevious variable_trace with
      | None => Raised AttributeError
      | Some previous =>
          if mustNotHaveValue previous then Returned (Some false)
          else if mustHaveValue previous then Returned (Some true)
          else Returned None
      end
  end.

(** *** Assignments to attributes, subscripts and slices *)

Definition aa_set_children (self : StatementAssignmentAttribute)
  (source expression : Expression) : StatementAssignmentAttribute :=
  mkStatementAssignmentAttribute source expression (aa_attribute_name self)
    (aa_source_ref self).

Definition StatementAssignmentAttribute_computeStatement
  (self : StatementAssignmentAttribute) (cc : ConstraintCollection)
  : Rule StatementAssignmentAttribute :=
  let '(source, cc) := onExpression cc (aa_source self) in
  let self := aa_set_children self source (aa_expression self) in
  if willRaiseException source BaseException then
    let result :=
      makeStatementExpressionOnlyReplacementNode source
        (STATEMENT_ASSIGNMENT_ATTRIBUTE self) in
    (Returned
       (ReturnTriple (Some result) new_raise
          (Some "Attribute assignment raises exception in assigned value, removed assignment.")),
     self, cc)
  else
  let '(lookup_source, cc) := onExpression cc (aa_expression self) in
  let self := aa_set_children self source lookup_source in
  if willRaiseException lookup_source BaseException then
    let result :=
      makeStatementOnlyNodesFromExpressions
        [Some source; Some lookup_source] in
    (Returned
       (ReturnTriple (Some result) new_raise
          (Some "Attribute assignment raises exception in source, removed assignment.")),
     self, cc)
  else
  let cc := onControlFlowEscape cc (STATEMENT_ASSIGNMENT_ATTRIBUTE self) in
  unchanged STATEMENT_ASSIGNMENT_ATTRIBUTE self cc.

Definition as_set_children (self : StatementAssignmentSubscript)
  (source expression subscript : Expression) : StatementAssignmentSubscript :=
  mkStatementAssignmentSubscript source expression subscript
    (as_source_ref self).

Definition StatementAssignmentSubscript_computeStatement
  (self : StatementAssignmentSubscript) (cc : ConstraintCollection)
  : Rule StatementAssignmentSubscript :=
  let '(source, cc) := onExpression cc (as_source self) in
  let self := as_set_children self source (as_expression self)
                (as_subscript self) in
  if willRaiseException source BaseException then
    let result :=
      makeStatementExpressionOnlyReplacementNode source
        (STATEMENT_ASSIGNMENT_SUBSCRIPT self) in
    (Returned
       (ReturnTriple (Some result) new_raise
          (Some "Subscript assignment raises exception in assigned value, removed assignment.")),
     self, cc)
  else
  let '(subscribed, cc) := onExpression cc (as_expression self) in
  let self := as_set_children self source subscribed (as_subscript self) in
  if willRaiseException subscribed BaseException then
    let result :=
      makeStatementOnlyNodesFromExpressions [Some source; Some subscribed] in
    (Returned
       (ReturnTriple (Some result) new_raise
          (Some "Subscript assignment raises exception in subscribed, removed assignment.")),
     self, cc)
  else
  let '(subscript, cc) := onExpression cc (as_subscript self) in
  let self := as_set_children self source subscribed subscript in
  if willRaiseException subscript BaseException then
    let result :=
      makeStatementOnlyNodesFromExpressions
        [Some source; Some subscribed; Some subscript] in
    (Returned
       (ReturnTriple (Some result) new_raise
          (Some (newline ++ "Subscript assignment raises exception in subscript value, removed assignment."))),
     self, cc)
  else
  let cc := onControlFlowEscape cc (STATEMENT_ASSIGNMENT_SUBSCRIPT self) in
  unchanged STATEMENT_ASSIGNMENT_SUBSCRIPT self cc.

Definition al_set_children (self : StatementAssignmentSlice)
  (source expression : Expression) (lower upper : option Expression)
  : StatementAssignmentSlice :=
  mkStatementAssignmentSlice source expression lower upper (al_source_ref self).

(** [x is not None and x.willRaiseException(BaseException)] *)
Definition presentAndWillRaise (x : option Expression) : bool :=
  match x with
  | Some e => willRaiseException e BaseException
  | None => false
  end.

Definition StatementAssignmentSlice_computeStatement
  (self : StatementAssignmentSlice) (cc : ConstraintCollection)
  : Rule StatementAssignmentSlice :=
  let '(source, cc) := onExpression cc (al_source self) in
  let self := al_set_children self source (al_expression self)
                (al_lower self) (al_upper self) in
  if willRaiseException source BaseException then
    let result :=
      makeStatementExpressionOnlyReplacementNode source
        (STATEMENT_ASSIGNMENT_SLICE self) in
    (Returned
       (ReturnTriple (Some result) new_raise
          (Some "Slice assignment raises exception in assigned value, removed assignment.")),
     self, cc)
  else
  let '(lookup_source, cc) := onExpression cc (al_expression self) in
  let self := al_set_children self source lookup_source
                (al_lower self) (al_upper self) in
  if willRaiseException lookup_source BaseException then
    let result :=
      makeStatementOnlyNodesFromExpressions
        [Some source; Some lookup_source] in
    (Returned
       (ReturnTriple (Some result) new_raise
          (Some "Slice assignment raises exception in sliced value, removed assignment.")),
     self, cc)
  else
  let '(lower, cc) := onExpression_allow_none cc (al_lower self) in
  let self := al_set_children self source lookup_source lower (al_upper self) in
  if presentAndWillRaise lower then
    let result :=
      makeStatementOnlyNodesFromExpressions
        [Some source; Some lookup_source; lower] in
    (Returned
       (ReturnTriple (Some result) new_raise
          (Some "Slice assignment raises exception in lower slice boundary value, removed assignment.")),
     self, cc)
  else
  let '(upper, cc) := onExpression_allow_none cc (al_upper self) in
  let self := al_set_children self source lookup_source lower upper in
  if presentAndWillRaise upper then
    let result :=
      makeStatementOnlyNodesFromExpressions
        [Some source; Some lookup_source; lower; upper] in
    (Returned
       (ReturnTriple (Some result) new_raise
          (Some "Slice assignment raises exception in upper slice boundary value, removed assignment.")),
     self, cc)
  else
  let cc := onControlFlowEscape cc (STATEMENT_ASSIGNMENT_SLICE self) in
  unchanged STATEMENT_ASSIGNMENT_SLICE self cc.

(** *** Deleting and releasing a variable *)

Definition dv_set_traces (self : StatementDelVariable)
  (variable_trace previous_trace : option VariableTrace)
  : StatementDelVariable :=
  mkStatementDelVariable (dv_variable_ref self) (dv_tolerant self)
    (dv_source_ref self) variable_trace previous_trace.

Definition isTolerant (self : StatementDelVariable) : bool :=
  dv_tolerant self.

Definition StatementDelVariable_computeStatement
  (self : StatementDelVariable) (cc : ConstraintCollection)
  : Rule StatementDelVariable :=
  let '(previous_trace, cc) := onVariableDel cc self in
  let self := dv_set_traces self (dv_variable_trace self)
                (Some previous_trace) in
  let variable := getVariable (dv_variable_ref self) in
  if isTolerant self && isUninitTrace previous_trace then
    (Returned
       (ReturnTriple None new_statements
          (Some ("Removed tolerant 'del' statement of '"
                 ++ format_name (getName variable) ++ "' without effect."))),
     self, cc)
  else
  let cc := onControlFlowEscape cc (STATEMENT_DEL_VARIABLE self) in
  let self := dv_set_traces self
                (Some (getVariableCurrentTrace cc variable))
                (dv_previous_trace self) in
  unchanged STATEMENT_DEL_VARIABLE self cc.

Definition StatementDelVariable_mayHaveSideEffects
  (self : StatementDelVariable) : bool :=
  true.

Definition StatementDelVariable_mayRaiseException
  (self : StatementDelVariable) (exception_type : ExceptionType) : bool :=
  if dv_tolerant self then false
  else
    match dv_variable_trace self with
    | Some _ =>
        let variable := getVariable (dv_variable_ref self) in
        if negb (isSharedTechnically variable) then
          if isTempVariable variable then false
          else
            match dv_previous_trace self with
            | Some previous_trace =>
                if mustHaveValue previous_trace then false else true
            | None => true
            end
        else true
    | None => true
    end.

Definition StatementReleaseVariable_computeStatement
  (self : StatementReleaseVariable) (cc : ConstraintCollection)
  : Rule StatementReleaseVariable :=
  let '(variable_trace, cc) := onVariableRelease cc (rv_variable self) in
  let self := mkStatementReleaseVariable (rv_variable self)
                (rv_source_ref self) (Some variable_trace) in
  if isUninitTrace variable_trace then
    (Returned
       (ReturnTriple None new_statements
          (Some ("Uninitialized variable '"
                 ++ format_name (getName (rv_variable self))
                 ++ "' is not released."))),
     self, cc)
  else unchanged STATEMENT_RELEASE_VARIABLE self cc.

Definition StatementReleaseVariable_mayHaveSideEffects
  (self : StatementReleaseVariable) : bool :=
  true.

Definition StatementReleaseVariable_mayRaiseException
  (self : StatementReleaseVariable) (exception_type : ExceptionType) : bool :=
  false.

(** *** Deleting attributes, subscripts and slices *)

Definition StatementDelAttribute_computeStatement
  (self : StatementDelAttribute) (cc : ConstraintCollection)
  : Rule StatementDelAttribute :=
  let '(lookup_source, cc) := onExpression cc (da_expression self) in
  let self := mkStatementDelAttribute lookup_source (da_attribute_name self)
                (da_source_ref self) in
  if willRaiseException lookup_source BaseException then
    (* [return makeStatementExpressionOnlyReplacementNode(...)]: the node
       alone, with no tag and no description *)
    (Returned
       (ReturnNode
          (makeStatementExpressionOnlyReplacementNode lookup_source
             (STATEMENT_DEL_ATTRIBUTE self))),
     self, cc)
  else
  let cc := onControlFlowEscape cc (STATEMENT_DEL_ATTRIBUTE self) in
  unchanged STATEMENT_DEL_ATTRIBUTE self cc.

Definition StatementDelSubscript_computeStatement
  (self : StatementDelSubscript) (cc : ConstraintCollection)
  : Rule StatementDelSubscript :=
  let '(subscribed, cc) := onExpression cc (ds_expression self) in
  let self := mkStatementDelSubscript subscribed (ds_subscript self)
                (ds_source_ref self) in
  if willRaiseException subscribed BaseException then
    let result :=
      makeStatementExpressionOnlyReplacementNode subscribed
        (STATEMENT_DEL_SUBSCRIPT self) in
    (Returned
       (ReturnTriple (Some result) new_raise
          (Some "Subscript 'del' raises exception in subscribed value, removed del.")),
     self, cc)
  else
  let '(subscript, cc) := onExpression cc (ds_subscript self) in
  let self := mkStatementDelSubscript subscribed subscript
                (ds_source_ref self) in
  if willRaiseException subscript BaseException then
    let result :=
      makeStatementOnlyNodesFromExpressions [Some subscribed; Some subscript] in
    (Returned
       (ReturnTriple (Some result) new_raise
          (Some "Subscript 'del' raises exception in subscript value, removed del.")),
     self, cc)
  else
  let cc := onControlFlowEscape cc (STATEMENT_DEL_SUBSCRIPT self) in
  unchanged STATEMENT_DEL_SUBSCRIPT self cc.

Definition StatementDelSlice_computeStatement
  (self : StatementDelSlice) (cc : ConstraintCollection)
  : Rule StatementDelSlice :=
  let '(lookup_source, cc) := onExpression cc (dl_expression self) in
  let self := mkStatementDelSlice lookup_source (dl_lower self)
                (dl_upper self) (dl_source_ref self) in
  if willRaiseException lookup_source BaseException then
    let result :=
      makeStatementExpressionOnlyReplacementNode lookup_source
        (STATEMENT_DEL_SLICE self) in
    (Returned
       (ReturnTriple (Some result) new_raise
          (Some "Slice del raises exception in sliced value, removed del")),
     self, cc)
  else
  let '(lower, cc) := onExpression_allow_none cc (dl_lower self) in
  let self := mkStatementDelSlice lookup_source lower (dl_upper self)
                (dl_source_ref self) in
  if presentAndWillRaise lower then
    let result :=
      makeStatementOnlyNodesFromExpressions [Some lookup_source; lower] in
    (Returned
       (ReturnTriple (Some result) new_raise
          (Some (newline ++ "Slice del raises exception in lower slice boundary value, removed del"))),
     self, cc)
  else
  let '(upper, cc) := onExpression_allow_none cc (dl_upper self) in
  let self := mkStatementDelSlice lookup_source lower upper
                (dl_source_ref self) in
  if presentAndWillRaise upper then
    let result :=
      makeStatementOnlyNodesFromExpressions
        [Some lookup_source; lower; upper] in
    (Returned
       (ReturnTriple (Some result) new_raise
          (Some (newline ++ "Slice del raises exception in upper slice boundary value, removed del"))),
     self, cc)
  else
  let cc := onControlFlowEscape cc (STATEMENT_DEL_SLICE self) in
  unchanged STATEMENT_DEL_SLICE self cc.

End Rules.

(** ** What a call gave *)

Definition rule_outcome {S : Type} (r : Rule S) : Outcome ReturnValue :=
  fst (fst r).

Definition rule_self {S : Type} (r : Rule S) : S :=
  snd (fst r).

Definition rule_collection {S : Type} (r : Rule S) : ConstraintCollection :=
  snd r.

(** The statement is gone: the replacement is [None]. *)
Definition isRemoved (o : Outcome ReturnValue) : bool :=
  match o with
  | Returned (ReturnTriple None new_statements _) => true
  | _ => false
  end.

(** The assignment is dropped: nothing, or only a [del] of its variable,
    stays in its place. *)
Definition assignmentDropped (o : Outcome ReturnValue) : bool :=
  match o with
  | Returned (ReturnTriple None _ _) => true
  | Returned (ReturnTriple (Some (STATEMENT_DEL_VARIABLE _)) _ _) => true
  | _ => false
  end.

(** The node the uses of the trace are to be rewritten to. *)
Definition getReplacementNode (t : VariableTrace) : option Expression :=
  match t with
  | Assigned _ r _ => r
  | _ => None
  end.

(** Whatever a rule returns is a triple within the contract. *)
Definition within_contract (o : Outcome ReturnValue) : Prop :=
  match o with
  | Returned value => fulfils_return_contract value = true
  | Raised _ => True
  end.

(** ** Statements of any kind

    [statement.computeStatement(collection)] runs the method of the class
    of the statement.  The rules of the bare evaluation and of the
    sequence are in another file, hence the [None] for them. *)

Definition as_kind {S : Type} (as_statement : S -> Statement) (r : Rule S)
  : Rule Statement :=
  let '(outcome, self, cc) := r in (outcome, as_statement self, cc).

Definition computeStatement
  (computeExpression :
     ConstraintCollection -> Expression -> Expression * ConstraintCollection)
  (g : Globals) (statement : Statement) (cc : ConstraintCollection)
  : option (Rule Statement) :=
  match statement with
  | STATEMENT_ASSIGNMENT_VARIABLE s =>
      Some (as_kind STATEMENT_ASSIGNMENT_VARIABLE
              (StatementAssignmentVariable_computeStatement
                 computeExpression g s cc))
  | STATEMENT_ASSIGNMENT_ATTRIBUTE s =>
      Some (as_kind STATEMENT_ASSIGNMENT_ATTRIBUTE
              (StatementAssignmentAttribute_computeStatement
                 computeExpression s cc))
  | STATEMENT_ASSIGNMENT_SUBSCRIPT s =>
      Some (as_kind STATEMENT_ASSIGNMENT_SUBSCRIPT
              (StatementAssignmentSubscript_computeStatement
                 computeExpression s cc))
  | STATEMENT_ASSIGNMENT_SLICE s =>
      Some (as_kind STATEMENT_ASSIGNMENT_SLICE
              (StatementAssignmentSlice_computeStatement
                 computeExpression s cc))
  | STATEMENT_DEL_VARIABLE s =>
      Some (as_kind STATEMENT_DEL_VARIABLE
              (StatementDelVariable_computeStatement s cc))
  | STATEMENT_RELEASE_VARIABLE s =>
      Some (as_kind STATEMENT_RELEASE_VARIABLE
              (StatementReleaseVariable_computeStatement s cc))
  | STATEMENT_DEL_ATTRIBUTE s =>
      Some (as_kind STATEMENT_DEL_ATTRIBUTE
              (StatementDelAttribute_computeStatement computeExpression s cc))
  | STATEMENT_DEL_SUBSCRIPT s =>
      Some (as_kind STATEMENT_DEL_SUBSCRIPT
              (StatementDelSubscript_computeStatement computeExpression s cc))
  | STATEMENT_DEL_SLICE s =>
      Some (as_kind STATEMENT_DEL_SLICE
              (StatementDelSlice_computeStatement computeExpression s cc))
  | STATEMENT_EXPRESSION_ONLY _ | STATEMENTS_SEQUENCE _ => None
  end.

(** [getAssignSource], the getter of the four assignment classes. *)
Definition getAssignSource (statement : Statement) : option Expression :=
  match statement with
  | STATEMENT_ASSIGNMENT_VARIABLE s => Some (av_source s)
  | STATEMENT_ASSIGNMENT_ATTRIBUTE s => Some (aa_source s)
  | STATEMENT_ASSIGNMENT_SUBSCRIPT s => Some (as_source s)
  | STATEMENT_ASSIGNMENT_SLICE s => Some (al_source s)
  | _ => None
  end.

(** [getLower] and [getUpper], the getters of the two slice classes. *)
Definition getLower (statement : Statement) : option Expression :=
  match statement with
  | STATEMENT_ASSIGNMENT_SLICE s => al_lower s
  | STATEMENT_DEL_SLICE s => dl_lower s
  | _ => None
  end.

Definition getUpper (statement : Statement) : option Expression :=
  match statement with
  | STATEMENT_ASSIGNMENT_SLICE s => al_upper s
  | STATEMENT_DEL_SLICE s => dl_upper s
  | _ => None
  end.

Definition present {A : Type} (children : list (option A)) : list A :=
  flat_map (fun c => match c with Some x => [x] | None => [] end) children.

(** The expressions among the children of a statement, in the order of
    [named_children] of its class; a bound that is absent is left out. *)
Definition expression_children (statement : Statement) : list Expression :=
  match statement with
  | STATEMENT_ASSIGNMENT_VARIABLE s => [av_source s]
  | STATEMENT_ASSIGNMENT_ATTRIBUTE s => [aa_source s; aa_expression s]
  | STATEMENT_ASSIGNMENT_SUBSCRIPT s =>
      [as_source s; as_expression s; as_subscript s]
  | STATEMENT_ASSIGNMENT_SLICE s =>
      present [Some (al_source s); Some (al_expression s); al_lower s;
               al_upper s]
  | STATEMENT_DEL_VARIABLE _ | STATEMENT_RELEASE_VARIABLE _ => []
  | STATEMENT_DEL_ATTRIBUTE s => [da_expression s]
  | STATEMENT_DEL_SUBSCRIPT s => [ds_expression s; ds_subscript s]
  | STATEMENT_DEL_SLICE s =>
      present [Some (dl_expression s); dl_lower s; dl_upper s]
  | STATEMENT_EXPRESSION_ONLY e => [e]
  | STATEMENTS_SEQUENCE _ => []
  end.

(** The expressions a replacement evaluates, when it is a bare evaluation
    or a sequence of bare evaluations. *)
Fixpoint evaluations (statements : list Statement)
  : option (list Expression) :=
  match statements with
  | [] => Some []
  | STATEMENT_EXPRESSION_ONLY e :: rest =>
      option_map (cons e) (evaluations rest)
  | _ :: _ => None
  end.

Definition evaluations_of (statement : Statement)
  : option (list Expression) :=
  match statement with
  | STATEMENT_EXPRESSION_ONLY e => Some [e]
  | STATEMENTS_SEQUENCE statements => evaluations statements
  | _ => None
  end.

Definition alwaysRaises (e : Expression) : bool :=
  willRaiseException e BaseException.

(** The analysis of an expression leaves the escape flag as it is. *)
Definition keeps_escape_flag
  (computeExpression :
     ConstraintCollection -> Expression -> Expression * ConstraintCollection)
  : Prop :=
  forall cc e, escaped (snd (computeExpression cc e)) = escaped cc.

(** The statement comes back as the replacement, with no change noted. *)
Definition isKept (r : Rule Statement) : Prop :=
  rule_outcome r
  = Returned (ReturnTriple (Some (rule_self r)) tag_none None).

(** The statements that change an object: assignments to and deletions of
    attributes, subscripts and slices. *)
Definition mutatesAnObject (statement : Statement) : bool :=
  match statement with
  | STATEMENT_ASSIGNMENT_ATTRIBUTE _ | STATEMENT_ASSIGNMENT_SUBSCRIPT _
  | STATEMENT_ASSIGNMENT_SLICE _ | STATEMENT_DEL_ATTRIBUTE _
  | STATEMENT_DEL_SUBSCRIPT _ | STATEMENT_DEL_SLICE _ => true
  | _ => false
  end.

(** The statement as it is when its trace of the previous pass is looked
    up: the source analysed, the new trace recorded. *)
Definition assignment_with_trace (self : StatementAssignmentVariable)
  (source : Expression) (cc : ConstraintCollection)
  : StatementAssignmentVariable :=
  av_set_variable_trace (setAssignSource self source)
    (fst (onVariableSet cc (setAssignSource self source))).

(** [provider] allows forwarding: the variable is a temporary, or its
    scope is optimized and no class dictionary creation (lines 192 to 194
    and 241 to 243). *)
Definition forwardingAllowed (self : StatementAssignmentVariable) : bool :=
  isTempVariable (getVariable (av_variable_ref self))
  || (negb (isUnoptimized (av_parent_provider self))
      && negb (isClassDictCreation (av_parent_provider self))).

(** ** Sample nodes, for the examples *)

Definition plain_expression (will_raise : bool) : Expression :=
  mkExpression (fun _ => will_raise) (fun _ => will_raise) will_raise
    false false EXPRESSION_OTHER.

Definition constant_expression : Expression :=
  mkExpression (fun _ => false) (fun _ => false) false true false
    EXPRESSION_OTHER.


Definition local_x : PyVariable :=
  mkVariable LocalVariable (Some "x") "f" false false.

Definition shared_x : PyVariable :=
  mkVariable LocalVariable (Some "x") "f" true true.

Definition target_of (v : PyVariable) : TargetVariableRef :=
  mkTargetVariableRef (format_name (getName v)) v.

Definition fresh_collection : ConstraintCollection :=
  mkConstraintCollection (fun _ => Uninit no_usages) false.

(** An expression analysis that leaves everything as it is. *)
Definition analysed_already (cc : ConstraintCollection) (e : Expression)
  : Expression * ConstraintCollection :=
  (e, cc).

Definition assignment_of_constant (v : PyVariable)
  (t : option VariableTrace) : StatementAssignmentVariable :=
  mkStatementAssignmentVariable constant_expression (target_of v) 1 t None
    (mkVariableProvider false false).

Definition del_of (v : PyVariable) (tolerant : bool)
  (variable_trace previous_trace : option VariableTrace)
  : StatementDelVariable :=
  mkStatementDelVariable (target_of v) tolerant 1 variable_trace
    previous_trace.

Definition temp_variable : PyVariable :=
  mkVariable TempVariable None "f" false false.

Definition subscript_assignment_sample : StatementAssignmentSubscript :=
  mkStatementAssignmentSubscript (plain_expression false)
    constant_expression (plain_expression true) 1.

Definition slice_assignment_sample : StatementAssignmentSlice :=
  mkStatementAssignmentSlice (plain_expression false) constant_expression
    (Some (plain_expression true)) (Some (plain_expression false)) 1.

Definition del_attribute_sample : StatementDelAttribute :=
  mkStatementDelAttribute (plain_expression true) "a" 1.

Definition no_globals : Globals := mkGlobals false (fun _ => None).


(** The registry of a previous pass in which the assignment had the given
    uses and the variable no value before it. *)
Definition registry_with (usages : Usages) : Globals :=
  mkGlobals true
    (fun _ =>
       Some (mkGlobalVariableTrace
               (fun _ => Some (Assigned usages None (Uninit no_usages))))).

Definition side_effects_expression : Expression :=
  mkExpression (fun _ => false) (fun _ => true) true false false
    (EXPRESSION_SIDE_EFFECTS [plain_expression false] constant_expression).

Definition function_expression : Expression :=
  mkExpression (fun _ => false) (fun _ => false) false false true
    (EXPRESSION_FUNCTION_CREATION (mkFunctionBody false false) [] None None).

Definition assignment_of (source : Expression) (v : PyVariable)
  : StatementAssignmentVariable :=
  mkStatementAssignmentVariable source (target_of v) 1 None None
    (mkVariableProvider false false).

(** The registry of a previous pass in which the variable had a value
    before the assignment. *)
Definition registry_after_value (usages : Usages) : Globals :=
  mkGlobals true
    (fun _ =>
       Some (mkGlobalVariableTrace
               (fun _ =>
                  Some (Assigned usages None
                          (Assigned no_usages None (Uninit no_usages)))))).


(** ** Basic facts *)

Lemma VariableKind_eqb_refl (k : VariableKind) : VariableKind_eqb k k = true.
Proof. destruct k; reflexivity. Qed.

Lemma name_eqb_refl (n : option string) : name_eqb n n = true.
Proof. destruct n as [s|]; simpl; [apply String.eqb_refl | reflexivity]. Qed.

Lemma PyVariable_eqb_refl (v : PyVariable) : PyVariable_eqb v v = true.
Proof.
  unfold PyVariable_eqb.
  rewrite VariableKind_eqb_refl, name_eqb_refl, String.eqb_refl.
  now rewrite !Bool.eqb_reflx.
Qed.

Lemma getVariableCurrentTrace_set (cc : ConstraintCollection)
  (v : PyVariable) (t : VariableTrace) :
  getVariableCurrentTrace (setVariableCurrentTrace cc v t) v = t.
Proof.
  unfold getVariableCurrentTrace, setVariableCurrentTrace; simpl.
  now rewrite PyVariable_eqb_refl.
Qed.

Lemma onControlFlowEscape_traces (cc : ConstraintCollection)
  (node : Statement) (v : PyVariable) :
  getVariableCurrentTrace (onControlFlowEscape cc node) v
  = if invalidatedByEscape v
    then traceAfterEscape (getVariableCurrentTrace cc v)
    else getVariableCurrentTrace cc v.
Proof. reflexivity. Qed.

Lemma traceAfterEscape_is_unknown (t : VariableTrace) :
  isUninitTrace (traceAfterEscape t) = false
  /\ mustNotHaveValue (traceAfterEscape t) = false
  /\ mustHaveValue (traceAfterEscape t) = mustHaveValue t.
Proof.
  repeat split; simpl.
  - now rewrite andb_false_r.
  - now rewrite andb_true_r.
Qed.

(** ** Exception potential of an assignment to a variable *)

(** C9: for every assignment to a variable and every exception type, the
    statement may raise exactly when its assignment source may raise; the
    assignment itself adds nothing. *)
Theorem assignment_variable_mayRaiseException_is_that_of_source
  (self : StatementAssignmentVariable) (exception_type : ExceptionType) :
  StatementAssignmentVariable_mayRaiseException self exception_type
  = mayRaiseException (av_source self) exception_type.
Proof. reflexivity. Qed.

(** ** Whether the old value of an assigned variable needs a release *)

(** C10: once the assignment trace of the statement is recorded,
    [needsReleaseValue] is decided by the trace it replaced: [False] when
    that one must not have a value, [True] when it must have one (and is
    not known to have none), and [None] otherwise. *)
Theorem needsReleaseValue_three_valued
  (self : StatementAssignmentVariable) (usages : Usages)
  (replacement : option Expression) (previous : VariableTrace)
  (recorded : av_variable_trace self
              = Some (Assigned usages replacement previous)) :
  (mustNotHaveValue previous = true ->
   StatementAssignmentVariable_needsReleaseValue self = Returned (Some false))
  /\ (mustNotHaveValue previous = false ->
      mustHaveValue previous = true ->
      StatementAssignmentVariable_needsReleaseValue self
      = Returned (Some true))
  /\ (mustNotHaveValue previous = false ->
      mustHaveValue previous = false ->
      StatementAssignmentVariable_needsReleaseValue self = Returned None).
Proof.
  unfold StatementAssignmentVariable_needsReleaseValue.
  rewrite recorded; simpl.
  repeat split; intros; repeat match goal with
                               | H : _ = _ |- _ => rewrite H
                               end; reflexivity.
Qed.

Lemma needsReleaseValue_three_valued_witness :
  StatementAssignmentVariable_needsReleaseValue
    (assignment_of_constant local_x
       (Some (Assigned no_usages None (Uninit no_usages))))
  = Returned (Some false).
Proof.
  refine (proj1 (@needsReleaseValue_three_valued
                   (assignment_of_constant local_x
                      (Some (Assigned no_usages None (Uninit no_usages))))
                   no_usages None (Uninit no_usages) eq_refl) eq_refl).
Defined.

(** The trace [computeStatement] records is an assignment trace whose
    predecessor is the trace the collection held before. *)
Lemma onVariableSet_records_assignment (cc : ConstraintCollection)
  (node : StatementAssignmentVariable) :
  fst (onVariableSet cc node)
  = Assigned no_usages None
      (getVariableCurrentTrace cc (getVariable (av_variable_ref node))).
Proof. reflexivity. Qed.

(** ** Releasing a variable *)

(** C8: the release rule records [onVariableRelease]; it removes the
    statement (replacement [None], tag [new_statements]) exactly when the
    resulting trace is [Uninit] and otherwise keeps the statement; and a
    release always may have side effects and never may raise. *)
Theorem release_variable_rule
  (self : StatementReleaseVariable) (cc : ConstraintCollection) :
  let r := StatementReleaseVariable_computeStatement self cc in
  let variable_trace := fst (onVariableRelease cc (rv_variable self)) in
  rule_collection r = snd (onVariableRelease cc (rv_variable self))
  /\ rule_self r
     = mkStatementReleaseVariable (rv_variable self) (rv_source_ref self)
         (Some variable_trace)
  /\ isRemoved (rule_outcome r) = isUninitTrace variable_trace
  /\ (isUninitTrace variable_trace = false ->
      rule_outcome r
      = Returned
          (ReturnTriple (Some (STATEMENT_RELEASE_VARIABLE (rule_self r)))
             tag_none None))
  /\ StatementReleaseVariable_mayHaveSideEffects self = true
  /\ (forall exception_type,
        StatementReleaseVariable_mayRaiseException self exception_type
        = false).
Proof.
  unfold StatementReleaseVariable_computeStatement.
  destruct (onVariableRelease cc (rv_variable self)) as [t cc'] eqn:E.
  simpl.
  destruct (isUninitTrace t) eqn:U; simpl;
    repeat split; try reflexivity; intros; congruence.
Qed.

(** ** Deleting a variable *)

(** C6: the rule for [del] of a variable first records [onVariableDel]; a
    tolerant [del] whose previous trace is [Uninit] is removed with tag
    [new_statements], with no escape and no trace fetched; in every other
    case the control flow escape is recorded, the current trace of the
    variable is fetched again from the collection after the escape, and
    the statement is returned as it is.  The trace fetched is the one the
    escape left: for a variable the escape invalidates it is the merge,
    not the [Uninit] trace the deletion had recorded. *)
Theorem del_variable_rule
  (self : StatementDelVariable) (cc : ConstraintCollection) :
  let r := StatementDelVariable_computeStatement self cc in
  let previous_trace := fst (onVariableDel cc self) in
  let cc_del := snd (onVariableDel cc self) in
  let variable := getVariable (dv_variable_ref self) in
  dv_previous_trace (rule_self r) = Some previous_trace
  /\ dv_variable_ref (rule_self r) = dv_variable_ref self
  /\ dv_tolerant (rule_self r) = dv_tolerant self
  /\ dv_source_ref (rule_self r) = dv_source_ref self
  /\ if dv_tolerant self && isUninitTrace previous_trace then
       (exists description,
           rule_outcome r
           = Returned (ReturnTriple None new_statements (Some description)))
       /\ rule_collection r = cc_del
       /\ dv_variable_trace (rule_self r) = dv_variable_trace self
     else
       (exists node, rule_collection r = onControlFlowEscape cc_del node)
       /\ escaped (rule_collection r) = true
       /\ dv_variable_trace (rule_self r)
          = Some (getVariableCurrentTrace (rule_collection r) variable)
       /\ dv_variable_trace (rule_self r)
          = Some (if invalidatedByEscape variable
                  then traceAfterEscape (Uninit no_usages)
                  else Uninit no_usages)
       /\ (invalidatedByEscape variable = true ->
           dv_variable_trace (rule_self r)
           <> Some (getVariableCurrentTrace cc_del variable))
       /\ rule_outcome r
          = Returned
              (ReturnTriple (Some (STATEMENT_DEL_VARIABLE (rule_self r)))
                 tag_none None).
Proof.
  unfold StatementDelVariable_computeStatement, isTolerant, onVariableDel.
  simpl.
  destruct (dv_tolerant self
            && isUninitTrace
                 (getVariableCurrentTrace cc
                    (getVariable (dv_variable_ref self)))) eqn:T; simpl.
  - do 4 (split; [reflexivity|]).
    split; [eexists; reflexivity | split; reflexivity].
  - do 4 (split; [reflexivity|]).
    split; [eexists; reflexivity|].
    split; [reflexivity|].
    split; [reflexivity|].
    unfold rule_self, getVariableCurrentTrace; simpl.
    rewrite PyVariable_eqb_refl.
    split; [reflexivity|].
    split; [|reflexivity].
    intros ->. discriminate.
Qed.

(** [onVariableDel] gives the trace that was current and leaves the
    variable without a value. *)
Lemma onVariableDel_previous_and_uninit (cc : ConstraintCollection)
  (del_node : StatementDelVariable) :
  fst (onVariableDel cc del_node)
  = getVariableCurrentTrace cc (getVariable (dv_variable_ref del_node))
  /\ getVariableCurrentTrace (snd (onVariableDel cc del_node))
       (getVariable (dv_variable_ref del_node))
     = Uninit no_usages.
Proof.
  split; [reflexivity|].
  unfold onVariableDel; simpl. apply getVariableCurrentTrace_set.
Qed.

(** ** Exception potential of deleting a variable *)

(** C7, as stated, fails: a [del] that is not tolerant may raise although
    the previous trace must have a value, when the variable is technically
    shared; and it may raise although the variable is a temporary, as long
    as the rule has not recorded the trace of the statement. *)
Lemma del_variable_mayRaiseException_guards :
  (let s := del_of shared_x false (Some (Uninit no_usages))
              (Some (Assigned no_usages None (Uninit no_usages))) in
   dv_tolerant s = false
   /\ (exists p, dv_previous_trace s = Some p /\ mustHaveValue p = true)
   /\ StatementDelVariable_mayRaiseException s BaseException = true)
  /\ (let s := del_of temp_variable false None None in
      dv_tolerant s = false
      /\ isTempVariable (getVariable (dv_variable_ref s)) = true
      /\ StatementDelVariable_mayRaiseException s BaseException = true).
Proof.
  split; simpl.
  - split; [reflexivity|]. split; [|reflexivity].
    eexists; split; reflexivity.
  - repeat split.
Qed.

(** C7, amended: a tolerant [del] never may raise; one that is not
    tolerant is known not to raise exactly when the rule has recorded the
    trace of the statement, the variable is not technically shared, and
    the variable is a temporary or the previous trace must have a value;
    in every other case it may raise. *)
Theorem del_variable_mayRaiseException_exactly
  (self : StatementDelVariable) (exception_type : ExceptionType) :
  let variable := getVariable (dv_variable_ref self) in
  StatementDelVariable_mayRaiseException self exception_type = false
  <-> dv_tolerant self = true
      \/ (dv_variable_trace self <> None
          /\ isSharedTechnically variable = false
          /\ (isTempVariable variable = true
              \/ exists previous_trace,
                  dv_previous_trace self = Some previous_trace
                  /\ mustHaveValue previous_trace = true)).
Proof.
  unfold StatementDelVariable_mayRaiseException.
  destruct (dv_tolerant self); simpl.
  { split; auto. }
  destruct (dv_variable_trace self) as [t|]; simpl.
  2: { split; [discriminate|]. intros [H|[H _]]; [discriminate | now elim H]. }
  destruct (isSharedTechnically (getVariable (dv_variable_ref self))); simpl.
  { split; [discriminate|]. intros [H|(_ & H & _)]; discriminate. }
  destruct (isTempVariable (getVariable (dv_variable_ref self))); simpl.
  { split; auto. intros _. right. repeat split; auto. discriminate. }
  destruct (dv_previous_trace self) as [p|]; simpl.
  - destruct (mustHaveValue p) eqn:M.
    + split; auto. intros _. right. repeat split; [discriminate|].
      right. now exists p.
    + split; [discriminate|].
      intros [H|(_ & _ & [H|(q & Hq & Hm)])]; try discriminate.
      congruence.
  - split; [discriminate|].
    intros [H|(_ & _ & [H|(q & Hq & _)])]; discriminate.
Qed.

(** ** The raise short-circuit *)

Section ShortCircuit.

Variable computeExpression :
  ConstraintCollection -> Expression -> Expression * ConstraintCollection.

(** C2, amended: when the subscript of an assignment to a subscript always
    raises, and neither the source nor the subscribed expression does, the
    replacement is the sequence of the bare evaluations of the source, the
    subscribed expression and the subscript, in that order, tagged
    [new_raise]; the assignment itself is dropped and no control flow
    escape is recorded for it. *)
Theorem assignment_subscript_raising_subscript
  (self : StatementAssignmentSubscript) (cc : ConstraintCollection)
  (source subscribed subscript : Expression)
  (cc1 cc2 cc3 : ConstraintCollection)
  (analysed_source : computeExpression cc (as_source self) = (source, cc1))
  (analysed_subscribed :
     computeExpression cc1 (as_expression self) = (subscribed, cc2))
  (analysed_subscript :
     computeExpression cc2 (as_subscript self) = (subscript, cc3))
  (source_returns : willRaiseException source BaseException = false)
  (subscribed_returns : willRaiseException subscribed BaseException = false)
  (subscript_raises : willRaiseException subscript BaseException = true) :
  let r := StatementAssignmentSubscript_computeStatement computeExpression
             self cc in
  (exists description,
      rule_outcome r
      = Returned
          (ReturnTriple
             (Some (STATEMENTS_SEQUENCE
                      [STATEMENT_EXPRESSION_ONLY source;
                       STATEMENT_EXPRESSION_ONLY subscribed;
                       STATEMENT_EXPRESSION_ONLY subscript]))
             new_raise (Some description)))
  /\ rule_collection r = cc3.
Proof.
  unfold StatementAssignmentSubscript_computeStatement, onExpression.
  rewrite analysed_source; simpl. rewrite source_returns.
  rewrite analysed_subscribed; simpl. rewrite subscribed_returns.
  rewrite analysed_subscript; simpl. rewrite subscript_raises.
  simpl. split; [eexists; reflexivity | reflexivity].
Qed.

(** C4: in an assignment to a slice with both bounds, when the lower bound
    always raises and neither the source nor the sliced expression does,
    the replacement is exactly the sequence of the bare evaluations of the
    source, the sliced expression and the lower bound, tagged [new_raise].
    The upper bound is not analysed: the collection is left as it was
    after the lower bound, the upper child is the one the statement had,
    and whatever the upper bound is, the result is the same. *)
Theorem assignment_slice_raising_lower
  (self : StatementAssignmentSlice) (cc : ConstraintCollection)
  (lower0 upper0 source lookup_source lower : Expression)
  (cc1 cc2 cc3 : ConstraintCollection)
  (has_lower : al_lower self = Some lower0)
  (has_upper : al_upper self = Some upper0)
  (analysed_source : computeExpression cc (al_source self) = (source, cc1))
  (analysed_sliced :
     computeExpression cc1 (al_expression self) = (lookup_source, cc2))
  (analysed_lower : computeExpression cc2 lower0 = (lower, cc3))
  (source_returns : willRaiseException source BaseException = false)
  (sliced_returns : willRaiseException lookup_source BaseException = false)
  (lower_raises : willRaiseException lower BaseException = true) :
  let r := StatementAssignmentSlice_computeStatement computeExpression
             self cc in
  (exists description,
      rule_outcome r
      = Returned
          (ReturnTriple
             (Some (STATEMENTS_SEQUENCE
                      [STATEMENT_EXPRESSION_ONLY source;
                       STATEMENT_EXPRESSION_ONLY lookup_source;
                       STATEMENT_EXPRESSION_ONLY lower]))
             new_raise (Some description)))
  /\ rule_collection r = cc3
  /\ al_upper (rule_self r) = Some upper0
  /\ (forall upper' : option Expression,
         let r' := StatementAssignmentSlice_computeStatement
                     computeExpression
                     (al_set_children self (al_source self)
                        (al_expression self) (al_lower self) upper')
                     cc in
         rule_outcome r' = rule_outcome r
         /\ rule_collection r' = rule_collection r).
Proof.
  unfold StatementAssignmentSlice_computeStatement, onExpression,
    onExpression_allow_none.
  simpl.
  rewrite analysed_source; simpl. rewrite source_returns.
  rewrite analysed_sliced; simpl. rewrite sliced_returns.
  rewrite has_lower, analysed_lower; simpl. rewrite lower_raises.
  simpl. rewrite has_upper.
  split; [eexists; reflexivity|].
  repeat split.
Qed.

(** C1, the defect: when the looked-up expression of a [del] of an
    attribute always raises, [computeStatement] returns the bare
    evaluation alone, not a triple: there is no change tag and no
    description, and the return contract of the rules is not met. *)
Theorem del_attribute_raising_lookup_returns_node_alone
  (self : StatementDelAttribute) (cc : ConstraintCollection)
  (lookup_source : Expression) (cc1 : ConstraintCollection)
  (analysed : computeExpression cc (da_expression self) = (lookup_source, cc1))
  (lookup_raises : willRaiseException lookup_source BaseException = true) :
  let r := StatementDelAttribute_computeStatement computeExpression self cc in
  rule_outcome r
  = Returned (ReturnNode (STATEMENT_EXPRESSION_ONLY lookup_source))
  /\ (forall replacement change_tag description,
         rule_outcome r
         <> Returned (ReturnTriple replacement change_tag description))
  /\ (forall value,
         rule_outcome r = Returned value ->
         fulfils_return_contract value = false).
Proof.
  unfold StatementDelAttribute_computeStatement, onExpression.
  rewrite analysed; simpl. rewrite lookup_raises; simpl.
  split; [reflexivity|].
  split; [discriminate|].
  intros value H. injection H as <-. reflexivity.
Qed.

(** The sibling rule for [del] of a subscript returns a triple on the same
    path. *)
Lemma del_subscript_raising_lookup_returns_triple
  (self : StatementDelSubscript) (cc : ConstraintCollection)
  (subscribed : Expression) (cc1 : ConstraintCollection)
  (analysed : computeExpression cc (ds_expression self) = (subscribed, cc1))
  (lookup_raises : willRaiseException subscribed BaseException = true) :
  rule_outcome
    (StatementDelSubscript_computeStatement computeExpression self cc)
  = Returned
      (ReturnTriple (Some (STATEMENT_EXPRESSION_ONLY subscribed)) new_raise
         (Some "Subscript 'del' raises exception in subscribed value, removed del.")).
Proof.
  unfold StatementDelSubscript_computeStatement, onExpression.
  rewrite analysed; simpl. now rewrite lookup_raises.
Qed.

End ShortCircuit.

(** C2, as stated, fails: the replacement holds three bare evaluations, the
    third being that of the subscript, not only those of the source and
    of the subscribed expression. *)
Lemma assignment_subscript_keeps_the_subscript :
  let r := StatementAssignmentSubscript_computeStatement analysed_already
             subscript_assignment_sample fresh_collection in
  willRaiseException (as_source subscript_assignment_sample) BaseException
  = false
  /\ willRaiseException (as_expression subscript_assignment_sample)
       BaseException = false
  /\ willRaiseException (as_subscript subscript_assignment_sample)
       BaseException = true
  /\ (exists description,
         rule_outcome r
         = Returned
             (ReturnTriple
                (Some (STATEMENTS_SEQUENCE
                         [STATEMENT_EXPRESSION_ONLY (plain_expression false);
                          STATEMENT_EXPRESSION_ONLY constant_expression;
                          STATEMENT_EXPRESSION_ONLY (plain_expression true)]))
                new_raise (Some description)))
  /\ (forall description,
         rule_outcome r
         <> Returned
              (ReturnTriple
                 (Some (STATEMENTS_SEQUENCE
                          [STATEMENT_EXPRESSION_ONLY (plain_expression false);
                           STATEMENT_EXPRESSION_ONLY constant_expression]))
                 new_raise description)).
Proof.
  simpl. repeat split.
  - eexists; reflexivity.
  - intros description H. discriminate H.
Qed.

Lemma assignment_subscript_raising_subscript_witness :
  exists description,
    rule_outcome
      (StatementAssignmentSubscript_computeStatement analysed_already
         subscript_assignment_sample fresh_collection)
    = Returned
        (ReturnTriple
           (Some (STATEMENTS_SEQUENCE
                    [STATEMENT_EXPRESSION_ONLY (plain_expression false);
                     STATEMENT_EXPRESSION_ONLY constant_expression;
                     STATEMENT_EXPRESSION_ONLY (plain_expression true)]))
           new_raise (Some description)).
Proof.
  exact (proj1 (@assignment_subscript_raising_subscript analysed_already
                  subscript_assignment_sample fresh_collection
                  _ _ _ _ _ _ eq_refl eq_refl eq_refl eq_refl eq_refl
                  eq_refl)).
Defined.

Lemma assignment_slice_raising_lower_witness :
  rule_collection
    (StatementAssignmentSlice_computeStatement analysed_already
       slice_assignment_sample fresh_collection)
  = fresh_collection.
Proof.
  exact (proj1 (proj2 (@assignment_slice_raising_lower analysed_already
                  slice_assignment_sample fresh_collection
                  _ _ _ _ _ _ _ _ eq_refl eq_refl eq_refl eq_refl eq_refl
                  eq_refl eq_refl eq_refl))).
Defined.

Lemma del_attribute_raising_lookup_witness :
  rule_outcome
    (StatementDelAttribute_computeStatement analysed_already
       del_attribute_sample fresh_collection)
  = Returned (ReturnNode (STATEMENT_EXPRESSION_ONLY (plain_expression true))).
Proof.
  exact (proj1 (@del_attribute_raising_lookup_returns_node_alone
                  analysed_already del_attribute_sample fresh_collection
                  _ _ eq_refl eq_refl)).
Defined.

(** ** Assigning a variable to itself *)


Section SelfAssignment.

Variable computeExpression :
  ConstraintCollection -> Expression -> Expression * ConstraintCollection.


End SelfAssignment.


(** ** Forwarding a constant and dropping its assignment *)

(** C3, as stated, fails.  The assignment of a constant to a local
    variable that is not shared is dropped although the previous trace
    shows two definite uses; and for a logically shared variable the
    constant is still set as the replacement of the uses, on the trace of
    the statement, which is the current trace of the collection. *)
Lemma constant_forwarded_to_many_uses_and_to_shared :
  (let r := StatementAssignmentVariable_computeStatement analysed_already
              (registry_with (mkUsages 2 0 0))
              (assignment_of_constant local_x None) fresh_collection in
   (exists global_trace last_trace,
       getGlobalVariableTrace (registry_with (mkUsages 2 0 0)) local_x
       = Some global_trace
       /\ getMatchingAssignTrace global_trace
            (assignment_of_constant local_x None) = Some last_trace
       /\ getDefiniteUsages (trace_usages last_trace) = 2)
   /\ isSharedLogically local_x = false
   /\ rule_outcome r
      = Returned
          (ReturnTriple None new_statements
             (Some "Dropped propagated assignment statement to 'x'.")))
  /\ (let r := StatementAssignmentVariable_computeStatement analysed_already
                 (registry_with (mkUsages 1 0 0))
                 (assignment_of_constant shared_x None) fresh_collection in
      isSharedLogically shared_x = true
      /\ option_map getReplacementNode (av_variable_trace (rule_self r))
         = Some (Some constant_expression)
      /\ getReplacementNode
           (getVariableCurrentTrace (rule_collection r) shared_x)
         = Some constant_expression).
Proof.
  split.
  - split; [|split; reflexivity].
    do 2 eexists. repeat split.
  - repeat split.
Qed.

Section Propagation.

Variable computeExpression :
  ConstraintCollection -> Expression -> Expression * ConstraintCollection.

(** C3, amended: under experimental mode, for an assignment of an
    immutable compile-time constant to a local or temporary variable, the
    assignment is dropped only when the variable is not logically shared
    and the trace of the previous pass that matches this very assignment
    shows no potential uses and no name uses, however many definite uses
    it shows; for a logically shared variable the assignment is never
    dropped, and unless its source is known to raise the statement is
    returned as it is. *)
Theorem constant_assignment_dropped_only_when
  (g : Globals) (self : StatementAssignmentVariable)
  (cc : ConstraintCollection) (source : Expression)
  (cc1 : ConstraintCollection)
  (analysed : computeExpression cc (av_source self) = (source, cc1))
  (experimental : isExperimental g = true)
  (local_or_temp :
     isLocalVariable (getVariable (av_variable_ref self))
     || isTempVariable (getVariable (av_variable_ref self)) = true)
  (constant_node : expression_kind source = EXPRESSION_OTHER)
  (constant : isCompileTimeConstant source = true)
  (immutable : isMutable source = false) :
  let variable := getVariable (av_variable_ref self) in
  let r := StatementAssignmentVariable_computeStatement computeExpression
             g self cc in
  (assignmentDropped (rule_outcome r) = true ->
   isSharedLogically variable = false
   /\ exists global_trace last_trace,
       getGlobalVariableTrace g variable = Some global_trace
       /\ getMatchingAssignTrace global_trace
            (assignment_with_trace self source cc1)
          = Some last_trace
       /\ hasPotentialUsages last_trace = false
       /\ hasNameUsages last_trace = false)
  /\ (isSharedLogically variable = true ->
      assignmentDropped (rule_outcome r) = false
      /\ (willRaiseException source BaseException = false ->
          rule_outcome r
          = Returned
              (ReturnTriple
                 (Some (STATEMENT_ASSIGNMENT_VARIABLE (rule_self r)))
                 tag_none None))).
Proof.
  unfold assignment_with_trace.
  unfold StatementAssignmentVariable_computeStatement, onExpression.
  rewrite analysed; simpl.
  destruct (willRaiseException source BaseException) eqn:W; simpl.
  { split; [discriminate|]. intros _. split; [reflexivity | discriminate]. }
  unfold isReferenceTo. rewrite constant_node, andb_false_r.
  destruct (getGlobalVariableTrace g (getVariable (av_variable_ref self)))
    as [global_trace|] eqn:G; simpl.
  2: { split; [discriminate|]. intros _. split; reflexivity. }
  rewrite experimental.
  match goal with
  | |- context [getMatchingAssignTrace global_trace ?n] =>
      destruct (getMatchingAssignTrace global_trace n)
        as [last_trace|] eqn:L; simpl
  end.
  2: { split; [discriminate|]. intros _. split; reflexivity. }
  rewrite local_or_temp, constant, immutable; simpl.
  match goal with
  | |- context [if ?b then _ else unchanged _ _ _] =>
      destruct b eqn:P; simpl
  end.
  2: { split; [discriminate|]. intros _. split; reflexivity. }
  destruct (hasDefiniteUsages last_trace) eqn:D; simpl;
    destruct (hasPotentialUsages last_trace) eqn:Po; simpl;
    destruct (hasNameUsages last_trace) eqn:N; simpl;
    destruct (isSharedLogically (getVariable (av_variable_ref self))) eqn:S;
    simpl;
    try (split; [discriminate | intros _; split; reflexivity]);
    try (split; [discriminate | discriminate]);
    (split; [| discriminate]); intros _; (split; [reflexivity|]);
    eauto 10.
Qed.

End Propagation.

Lemma constant_assignment_dropped_only_when_witness :
  isSharedLogically local_x = false
  /\ exists global_trace last_trace,
      getGlobalVariableTrace (registry_with (mkUsages 1 0 0)) local_x
      = Some global_trace
      /\ getMatchingAssignTrace global_trace
           (assignment_with_trace (assignment_of_constant local_x None)
              constant_expression fresh_collection)
         = Some last_trace
      /\ hasPotentialUsages last_trace = false
      /\ hasNameUsages last_trace = false.
Proof.
  exact (proj1 (@constant_assignment_dropped_only_when analysed_already
                  (registry_with (mkUsages 1 0 0))
                  (assignment_of_constant local_x None) fresh_collection
                  _ _ eq_refl eq_refl eq_refl eq_refl eq_refl eq_refl)
           eq_refl).
Defined.

(** ** The return contract of the other rules *)

Section Contract.

Variable computeExpression :
  ConstraintCollection -> Expression -> Expression * ConstraintCollection.

Ltac analyse_children :=
  repeat match goal with
    | |- context [computeExpression ?c ?e] =>
        let e' := fresh "e" in
        let c' := fresh "cc" in
        destruct (computeExpression c e) as [e' c']; simpl
    | |- context [if ?b then _ else _] => destruct b; simpl
    | |- context [match ?o with Some _ => _ | None => _ end] =>
        destruct o; simpl
    end;
  try reflexivity.

Lemma assignment_attribute_within_contract
  (self : StatementAssignmentAttribute) (cc : ConstraintCollection) :
  within_contract
    (rule_outcome
       (StatementAssignmentAttribute_computeStatement computeExpression
          self cc)).
Proof.
  unfold StatementAssignmentAttribute_computeStatement, onExpression.
  analyse_children.
Qed.

Lemma assignment_subscript_within_contract
  (self : StatementAssignmentSubscript) (cc : ConstraintCollection) :
  within_contract
    (rule_outcome
       (StatementAssignmentSubscript_computeStatement computeExpression
          self cc)).
Proof.
  unfold StatementAssignmentSubscript_computeStatement, onExpression.
  analyse_children.
Qed.

Lemma assignment_slice_within_contract
  (self : StatementAssignmentSlice) (cc : ConstraintCollection) :
  within_contract
    (rule_outcome
       (StatementAssignmentSlice_computeStatement computeExpression
          self cc)).
Proof.
  unfold StatementAssignmentSlice_computeStatement, onExpression,
    onExpression_allow_none, presentAndWillRaise.
  analyse_children.
Qed.

Lemma del_subscript_within_contract
  (self : StatementDelSubscript) (cc : ConstraintCollection) :
  within_contract
    (rule_outcome
       (StatementDelSubscript_computeStatement computeExpression self cc)).
Proof.
  unfold StatementDelSubscript_computeStatement, onExpression.
  analyse_children.
Qed.

Lemma del_slice_within_contract
  (self : StatementDelSlice) (cc : ConstraintCollection) :
  within_contract
    (rule_outcome
       (StatementDelSlice_computeStatement computeExpression self cc)).
Proof.
  unfold StatementDelSlice_computeStatement, onExpression,
    onExpression_allow_none, presentAndWillRaise.
  analyse_children.
Qed.

Lemma del_variable_within_contract
  (self : StatementDelVariable) (cc : ConstraintCollection) :
  within_contract
    (rule_outcome (StatementDelVariable_computeStatement self cc)).
Proof.
  unfold StatementDelVariable_computeStatement, isTolerant; simpl.
  analyse_children.
Qed.

Lemma release_variable_within_contract
  (self : StatementReleaseVariable) (cc : ConstraintCollection) :
  within_contract
    (rule_outcome (StatementReleaseVariable_computeStatement self cc)).
Proof.
  unfold StatementReleaseVariable_computeStatement, onVariableRelease.
  analyse_children.
Qed.

Lemma assignment_variable_within_contract
  (g : Globals) (self : StatementAssignmentVariable)
  (cc : ConstraintCollection) :
  within_contract
    (rule_outcome
       (StatementAssignmentVariable_computeStatement computeExpression
          g self cc)).
Proof.
  unfold StatementAssignmentVariable_computeStatement, onExpression,
    dropAssignment.
  destruct (computeExpression cc (av_source self)) as [source cc1]; simpl.
  destruct (willRaiseException source BaseException); [reflexivity|].
  match goal with
  | |- context [if ?b then _ else _] => destruct b
  end.
  { destruct (mayHaveSideEffects source); reflexivity. }
  destruct (expression_kind source); simpl; try reflexivity;
    destruct (getGlobalVariableTrace g (getVariable (av_variable_ref self)));
    simpl; try reflexivity;
    destruct (isExperimental g); simpl; try reflexivity;
    match goal with
    | |- context [getMatchingAssignTrace ?t ?n] =>
        destruct (getMatchingAssignTrace t n) as [last_trace|]
    end; simpl; try reflexivity;
    repeat match goal with
      | |- context [if ?b then _ else _] => destruct b; simpl
      | |- context [match getPrevious ?t with _ => _ end] =>
          destruct (getPrevious t); simpl
      end;
    try reflexivity; exact I.
Qed.

(** On the path where the looked-up expression does not always raise, the
    rule for [del] of an attribute is within the contract as well. *)
Lemma del_attribute_within_contract_otherwise
  (self : StatementDelAttribute) (cc : ConstraintCollection) :
  willRaiseException (fst (computeExpression cc (da_expression self)))
    BaseException = false ->
  within_contract
    (rule_outcome
       (StatementDelAttribute_computeStatement computeExpression self cc)).
Proof.
  unfold StatementDelAttribute_computeStatement, onExpression.
  destruct (computeExpression cc (da_expression self)) as [e cc1]; simpl.
  intros ->. reflexivity.
Qed.

End Contract.

(** * Further properties of the rules *)

(** ** Rules of every kind *)

Section EveryKind.

Variable computeExpression :
  ConstraintCollection -> Expression -> Expression * ConstraintCollection.

Ltac unfold_rules :=
  unfold computeStatement, as_kind, isKept,
    StatementAssignmentVariable_computeStatement,
    StatementAssignmentAttribute_computeStatement,
    StatementAssignmentSubscript_computeStatement,
    StatementAssignmentSlice_computeStatement,
    StatementDelVariable_computeStatement,
    StatementReleaseVariable_computeStatement,
    StatementDelAttribute_computeStatement,
    StatementDelSubscript_computeStatement,
    StatementDelSlice_computeStatement,
    onExpression, onExpression_allow_none, presentAndWillRaise,
    dropAssignment, isTolerant, unchanged,
    makeStatementOnlyNodesFromExpressions,
    makeStatementExpressionOnlyReplacementNode,
    makeStatementsSequenceReplacementNode in *.

Ltac split_paths :=
  repeat match goal with
    | |- context [computeExpression ?c ?e] =>
        let e' := fresh "e" in
        let c' := fresh "cc" in
        let E := fresh "E" in
        destruct (computeExpression c e) as [e' c'] eqn:E; simpl
    | |- context [onVariableRelease ?c ?v] =>
        let t := fresh "t" in
        let c' := fresh "cc" in
        let E := fresh "E" in
        destruct (onVariableRelease c v) as [t c'] eqn:E; simpl
    | |- context [if ?b then _ else _] =>
        let B := fresh "B" in destruct b eqn:B; simpl
    | |- context [match ?o with Some _ => _ | None => _ end] =>
        let O := fresh "O" in destruct o eqn:O; simpl
    | |- context [match expression_kind ?e with _ => _ end] =>
        let K := fresh "K" in destruct (expression_kind e) eqn:K; simpl
    end.

(** X1: a rule notes a change exactly when it does not return the
    statement itself: in a returned triple the tag is [None] if and only
    if the replacement is the statement, and if and only if there is no
    description. *)
Theorem change_noted_iff_statement_replaced
  (g : Globals) (statement : Statement) (cc : ConstraintCollection)
  (r : Rule Statement) (replacement : option Statement)
  (change_tag : ChangeTag) (description : option string)
  (ran : computeStatement computeExpression g statement cc = Some r)
  (returned :
     rule_outcome r
     = Returned (ReturnTriple replacement change_tag description)) :
  (change_tag = tag_none <-> replacement = Some (rule_self r))
  /\ (change_tag = tag_none <-> description = None).
Proof.
  revert returned.
  destruct statement; simpl in ran; try discriminate;
    injection ran as <-; unfold_rules;
    unfold rule_outcome, rule_self; simpl;
    split_paths; intros returned;
    try discriminate returned;
    injection returned as <- <- <-;
    (split; split; intros H; try reflexivity; discriminate H).
Qed.

(** X2: whatever the kind of the assignment, when its source always
    raises the replacement is the bare evaluation of the source alone,
    tagged [new_raise]; no other child is analysed or touched, and the
    collection is left as the analysis of the source left it. *)
Theorem raising_source_strips_the_assignment
  (g : Globals) (statement : Statement) (cc : ConstraintCollection)
  (e source : Expression) (cc1 : ConstraintCollection)
  (has_source : getAssignSource statement = Some e)
  (analysed : computeExpression cc e = (source, cc1))
  (source_raises : willRaiseException source BaseException = true) :
  exists r description,
    computeStatement computeExpression g statement cc = Some r
    /\ rule_outcome r
       = Returned
           (ReturnTriple (Some (STATEMENT_EXPRESSION_ONLY source)) new_raise
              (Some description))
    /\ rule_collection r = cc1
    /\ expression_children (rule_self r)
       = source :: tl (expression_children statement).
Proof.
  destruct statement; simpl in has_source; try discriminate;
    injection has_source as <-; unfold_rules; simpl;
    rewrite analysed; simpl; rewrite source_raises;
    eexists; eexists; (split; [reflexivity|]); repeat split.
Qed.

(** X3: provided the analysis of expressions leaves the escape flag
    alone, a rule sets it only when it returns the statement itself; and a
    statement that is returned has the flag set, unless it is an
    assignment to a variable or a release, which never set it. *)
Theorem escape_recorded_only_for_a_kept_statement
  (g : Globals) (statement : Statement) (cc : ConstraintCollection)
  (r : Rule Statement)
  (quiet : keeps_escape_flag computeExpression)
  (no_escape_yet : escaped cc = false)
  (ran : computeStatement computeExpression g statement cc = Some r) :
  (escaped (rule_collection r) = true -> isKept r)
  /\ (isKept r ->
      escaped (rule_collection r)
      = match statement with
        | STATEMENT_ASSIGNMENT_VARIABLE _
        | STATEMENT_RELEASE_VARIABLE _ => false
        | _ => true
        end).
Proof.
  destruct statement; simpl in ran; try discriminate;
    injection ran as <-; unfold_rules;
    unfold rule_outcome, rule_self, rule_collection, onVariableRelease;
    simpl;
    split_paths;
    repeat match goal with
      | E : computeExpression ?c ?x = (_, ?c') |- _ =>
          let Q := fresh "Q" in
          pose proof (quiet c x) as Q; rewrite E in Q; simpl in Q;
          revert E
      end;
    intros;
    (split; intros H; try reflexivity; try discriminate H; try congruence).
Qed.

Ltac name_the_prefix :=
  match goal with
  | |- exists _ _ _,
        Some (STATEMENT_EXPRESSION_ONLY ?a) = Some _ /\ _ =>
      exists [], a, (STATEMENT_EXPRESSION_ONLY a)
  | |- exists _ _ _,
        Some (STATEMENTS_SEQUENCE
                [STATEMENT_EXPRESSION_ONLY ?a; STATEMENT_EXPRESSION_ONLY ?b])
        = Some _ /\ _ =>
      exists [a], b,
        (STATEMENTS_SEQUENCE
           [STATEMENT_EXPRESSION_ONLY a; STATEMENT_EXPRESSION_ONLY b])
  | |- exists _ _ _,
        Some (STATEMENTS_SEQUENCE
                [STATEMENT_EXPRESSION_ONLY ?a; STATEMENT_EXPRESSION_ONLY ?b;
                 STATEMENT_EXPRESSION_ONLY ?c])
        = Some _ /\ _ =>
      exists [a; b], c,
        (STATEMENTS_SEQUENCE
           [STATEMENT_EXPRESSION_ONLY a; STATEMENT_EXPRESSION_ONLY b;
            STATEMENT_EXPRESSION_ONLY c])
  | |- exists _ _ _,
        Some (STATEMENTS_SEQUENCE
                [STATEMENT_EXPRESSION_ONLY ?a; STATEMENT_EXPRESSION_ONLY ?b;
                 STATEMENT_EXPRESSION_ONLY ?c; STATEMENT_EXPRESSION_ONLY ?d])
        = Some _ /\ _ =>
      exists [a; b; c], d,
        (STATEMENTS_SEQUENCE
           [STATEMENT_EXPRESSION_ONLY a; STATEMENT_EXPRESSION_ONLY b;
            STATEMENT_EXPRESSION_ONLY c; STATEMENT_EXPRESSION_ONLY d])
  end.

(** X4: a replacement tagged [new_raise] evaluates a prefix of the
    analysed children of the statement, in the order in which the class
    names them: bare evaluations only, the last one of an expression that
    always raises and none before it of one that does.  (A slice with an
    upper bound is taken to have a lower bound too.) *)
Theorem raise_keeps_the_analysed_prefix
  (g : Globals) (statement : Statement) (cc : ConstraintCollection)
  (r : Rule Statement) (replacement : option Statement)
  (description : option string)
  (bounds : getLower statement = None -> getUpper statement = None)
  (ran : computeStatement computeExpression g statement cc = Some r)
  (returned :
     rule_outcome r
     = Returned (ReturnTriple replacement new_raise description)) :
  exists prefix raising statement',
    replacement = Some statement'
    /\ evaluations_of statement' = Some (prefix ++ [raising])%list
    /\ alwaysRaises raising = true
    /\ forallb (fun e => negb (alwaysRaises e)) prefix = true
    /\ firstn (length (prefix ++ [raising])%list)
         (expression_children (rule_self r))
       = (prefix ++ [raising])%list.
Proof.
  revert returned.
  destruct statement; simpl in ran, bounds; try discriminate;
    injection ran as <-; unfold_rules;
    unfold rule_outcome, rule_self, alwaysRaises; simpl;
    split_paths; intros returned;
    try discriminate returned;
    try (specialize (bounds eq_refl); discriminate bounds);
    injection returned as <- <-;
    name_the_prefix; simpl;
    repeat match goal with
      | H : willRaiseException _ BaseException = _ |- _ => rewrite H
      end;
    repeat split.
Qed.

(** X12: an assignment to or a deletion of an attribute, a subscript or a
    slice is returned as it is exactly when none of its children, as the
    analysis left them, always raises. *)
Theorem mutation_kept_iff_nothing_raises
  (g : Globals) (statement : Statement) (cc : ConstraintCollection)
  (r : Rule Statement)
  (mutation : mutatesAnObject statement = true)
  (ran : computeStatement computeExpression g statement cc = Some r) :
  isKept r
  <-> forallb (fun e => negb (alwaysRaises e))
        (expression_children (rule_self r))
      = true.
Proof.
  destruct statement; simpl in ran, mutation; try discriminate;
    injection ran as <-; unfold_rules;
    unfold rule_outcome, rule_self, alwaysRaises; simpl;
    split_paths;
    repeat match goal with
      | H : willRaiseException _ BaseException = _ |- _ => rewrite H
      end;
    simpl; rewrite ?andb_false_r;
    (split; intros H; try reflexivity; discriminate H).
Qed.

(** X13: apart from the rule for the deletion of an attribute, whatever
    a rule returns is a triple within the return contract: with a tag
    other than [None] comes a description that is not empty. *)
Theorem rules_return_contract_triples
  (g : Globals) (statement : Statement) (cc : ConstraintCollection)
  (r : Rule Statement) (value : ReturnValue)
  (no_del_attribute : forall s, statement <> STATEMENT_DEL_ATTRIBUTE s)
  (ran : computeStatement computeExpression g statement cc = Some r)
  (returned : rule_outcome r = Returned value) :
  fulfils_return_contract value = true.
Proof.
  revert returned.
  destruct statement; simpl in ran; try discriminate;
    try (now elim (no_del_attribute s));
    injection ran as <-; unfold_rules;
    unfold rule_outcome; simpl;
    split_paths; intros returned;
    try discriminate returned;
    injection returned as <-; reflexivity.
Qed.

(** X14: when a rule stops at a child that always raises, the statement
    has as many children as before, and the children after the raising
    one are the ones the statement had: they are not analysed.
    (A slice with an upper bound is taken to have a lower bound too.) *)
Theorem children_after_the_raise_are_untouched
  (g : Globals) (statement : Statement) (cc : ConstraintCollection)
  (r : Rule Statement) (statement' : Statement)
  (description : option string) (evaluated : list Expression)
  (bounds : getLower statement = None -> getUpper statement = None)
  (ran : computeStatement computeExpression g statement cc = Some r)
  (returned :
     rule_outcome r
     = Returned (ReturnTriple (Some statement') new_raise description))
  (evaluates : evaluations_of statement' = Some evaluated) :
  length (expression_children (rule_self r))
  = length (expression_children statement)
  /\ skipn (length evaluated) (expression_children (rule_self r))
     = skipn (length evaluated) (expression_children statement).
Proof.
  revert returned evaluates.
  destruct statement; simpl in ran, bounds; try discriminate;
    injection ran as <-; unfold_rules;
    unfold rule_outcome, rule_self; simpl;
    split_paths; intros returned;
    try discriminate returned;
    try (specialize (bounds eq_refl); discriminate bounds);
    injection returned as <- <-; simpl;
    intros evaluates; injection evaluates as <-; simpl;
    repeat match goal with
      | |- context [match ?o with Some _ => _ | None => _ end] =>
          destruct o; simpl
      end;
    split; reflexivity.
Qed.

End EveryKind.

(** ** Assignments to a variable, beyond the claims *)

Section AssignmentVariable.

Variable computeExpression :
  ConstraintCollection -> Expression -> Expression * ConstraintCollection.

(** X5: when the analysed source is a side effects node that does not
    always raise, the replacement is the sequence of the bare evaluations
    of the side effects, in their order, followed by the assignment
    itself, whose source is now the expression the side effects came
    with; the tag is [new_statements] and no trace is recorded. *)
Theorem side_effects_promoted_to_statements
  (g : Globals) (self : StatementAssignmentVariable)
  (cc : ConstraintCollection) (source : Expression)
  (cc1 : ConstraintCollection) (side_effects : list Expression)
  (expression : Expression)
  (analysed : computeExpression cc (av_source self) = (source, cc1))
  (source_returns : willRaiseException source BaseException = false)
  (is_side_effects :
     expression_kind source = EXPRESSION_SIDE_EFFECTS side_effects expression) :
  let r := StatementAssignmentVariable_computeStatement computeExpression
             g self cc in
  rule_outcome r
  = Returned
      (ReturnTriple
         (Some (STATEMENTS_SEQUENCE
                  (map STATEMENT_EXPRESSION_ONLY side_effects
                   ++ [STATEMENT_ASSIGNMENT_VARIABLE (rule_self r)])%list))
         new_statements
         (Some "Side effects of assignments promoted to statements."))
  /\ av_source (rule_self r) = expression
  /\ av_variable_ref (rule_self r) = av_variable_ref self
  /\ av_variable_trace (rule_self r) = av_variable_trace self
  /\ rule_collection r = cc1.
Proof.
  unfold StatementAssignmentVariable_computeStatement, onExpression.
  rewrite analysed; simpl. rewrite source_returns.
  unfold isReferenceTo. rewrite is_side_effects, andb_false_r.
  simpl. repeat split.
Qed.

(** X6: an assignment whose source neither always raises, nor is the
    target variable itself, nor is a side effects node, is returned as
    it is whenever forwarding is not tried: outside the experimental mode,
    without a trace in the registry, for a variable that is neither local
    nor temporary, or for a mutable constant.  Its trace is then a new
    assignment trace on top of the trace the variable had, that trace is
    the current one of the collection, and [needsReleaseValue] answers
    from the trace the variable had. *)
Theorem kept_assignment_records_its_trace
  (g : Globals) (self : StatementAssignmentVariable)
  (cc : ConstraintCollection) (source : Expression)
  (cc1 : ConstraintCollection)
  (analysed : computeExpression cc (av_source self) = (source, cc1))
  (source_returns : willRaiseException source BaseException = false)
  (not_itself :
     isModuleVariable (getVariable (av_variable_ref self))
     || negb (isReferenceTo source (getVariable (av_variable_ref self)))
     = true)
  (no_side_effects_node : isExpressionSideEffects source = false)
  (not_tried :
     isExperimental g = false
     \/ getGlobalVariableTrace g (getVariable (av_variable_ref self)) = None
     \/ isLocalVariable (getVariable (av_variable_ref self))
        || isTempVariable (getVariable (av_variable_ref self)) = false
     \/ (isCompileTimeConstant source = true /\ isMutable source = true)) :
  let variable := getVariable (av_variable_ref self) in
  let before := getVariableCurrentTrace cc1 variable in
  let r := StatementAssignmentVariable_computeStatement computeExpression
             g self cc in
  rule_outcome r
  = Returned
      (ReturnTriple (Some (STATEMENT_ASSIGNMENT_VARIABLE (rule_self r)))
         tag_none None)
  /\ av_source (rule_self r) = source
  /\ av_variable_trace (rule_self r) = Some (Assigned no_usages None before)
  /\ getVariableCurrentTrace (rule_collection r) variable
     = Assigned no_usages None before
  /\ StatementAssignmentVariable_needsReleaseValue (rule_self r)
     = Returned
         (if mustNotHaveValue before then Some false
          else if mustHaveValue before then Some true
          else None).
Proof.
  unfold StatementAssignmentVariable_computeStatement, onExpression.
  rewrite analysed; simpl. rewrite source_returns.
  assert (N : negb (isModuleVariable (getVariable (av_variable_ref self)))
              && isReferenceTo source (getVariable (av_variable_ref self))
              = false).
  { destruct (isModuleVariable _), (isReferenceTo _ _);
      simpl in *; congruence. }
  rewrite N.
  unfold isExpressionSideEffects in no_side_effects_node.
  assert (R := getVariableCurrentTrace_set cc1
                 (getVariable (av_variable_ref self))
                 (Assigned no_usages None
                    (getVariableCurrentTrace cc1
                       (getVariable (av_variable_ref self))))).
  destruct (expression_kind source) eqn:K; try discriminate; simpl;
    (destruct (getGlobalVariableTrace g (getVariable (av_variable_ref self)))
       as [global_trace|] eqn:G; simpl;
     [ destruct (isExperimental g) eqn:X; simpl;
       [ match goal with
         | |- context [getMatchingAssignTrace global_trace ?n] =>
             destruct (getMatchingAssignTrace global_trace n)
               as [last_trace|] eqn:L; simpl
         end;
         [ destruct (isLocalVariable (getVariable (av_variable_ref self))
                     || isTempVariable (getVariable (av_variable_ref self)))
             eqn:V; simpl;
           [ destruct not_tried as [H|[H|[H|[H1 H2]]]];
             try discriminate; rewrite H1, H2; simpl
           | ]
         | ]
       | ]
     | ]);
    unfold StatementAssignmentVariable_needsReleaseValue, rule_collection;
    simpl; rewrite ?PyVariable_eqb_refl;
    repeat split; try reflexivity.
  all: destruct (mustNotHaveValue _); try reflexivity.
  all: destruct (mustHaveValue _); reflexivity.
Qed.

(** X7: whenever the rule leaves a [del] in place of the assignment, the
    [del] is tolerant, is of the target of the assignment, sits at its
    source location and never may raise; the tag is [new_statements]. *)
Theorem replacement_del_is_tolerant
  (g : Globals) (self : StatementAssignmentVariable)
  (cc : ConstraintCollection) (del : StatementDelVariable)
  (change_tag : ChangeTag) (description : option string)
  (returned :
     rule_outcome
       (StatementAssignmentVariable_computeStatement computeExpression
          g self cc)
     = Returned
         (ReturnTriple (Some (STATEMENT_DEL_VARIABLE del)) change_tag
            description)) :
  dv_tolerant del = true
  /\ dv_variable_ref del = av_variable_ref self
  /\ dv_source_ref del = av_source_ref self
  /\ change_tag = new_statements
  /\ forall exception_type,
      StatementDelVariable_mayRaiseException del exception_type = false.
Proof.
  revert returned.
  unfold StatementAssignmentVariable_computeStatement, onExpression,
    dropAssignment, unchanged, rule_outcome.
  destruct (computeExpression cc (av_source self)) as [source cc1]; simpl.
  repeat match goal with
    | |- context [if ?b then _ else _] => destruct b; simpl
    | |- context [match getPrevious ?t with _ => _ end] =>
        destruct (getPrevious t); simpl
    | |- context [match getGlobalVariableTrace ?a ?b with _ => _ end] =>
        destruct (getGlobalVariableTrace a b); simpl
    | |- context [match getMatchingAssignTrace ?a ?b with _ => _ end] =>
        destruct (getMatchingAssignTrace a b); simpl
    | |- context [match expression_kind ?e with _ => _ end] =>
        destruct (expression_kind e); simpl
    end;
    intros returned; try discriminate returned;
    injection returned as <- <- <-; repeat split.
Qed.

(** X8: for a statement that had no trace yet, the trace the rule leaves
    on it is the current trace of its variable in the collection, also
    after a replacement node was set on it. *)
Theorem statement_trace_is_current_trace
  (g : Globals) (self : StatementAssignmentVariable)
  (cc : ConstraintCollection) (t : VariableTrace)
  (fresh : av_variable_trace self = None) :
  let r := StatementAssignmentVariable_computeStatement computeExpression
             g self cc in
  av_variable_trace (rule_self r) = Some t ->
  getVariableCurrentTrace (rule_collection r)
    (getVariable (av_variable_ref self))
  = t.
Proof.
  unfold StatementAssignmentVariable_computeStatement, onExpression,
    dropAssignment, unchanged, rule_self, rule_collection.
  destruct (computeExpression cc (av_source self)) as [source cc1]; simpl.
  repeat match goal with
    | |- context [PyVariable_eqb ?a ?a] => rewrite PyVariable_eqb_refl
    | |- context [if ?b then _ else _] => destruct b; simpl
    | |- context [match getGlobalVariableTrace ?a ?b with _ => _ end] =>
        destruct (getGlobalVariableTrace a b); simpl
    | |- context [match getMatchingAssignTrace ?a ?b with _ => _ end] =>
        destruct (getMatchingAssignTrace a b); simpl
    | |- context [match expression_kind ?e with _ => _ end] =>
        destruct (expression_kind e); simpl
    end;
    rewrite ?fresh; intros H; try discriminate H;
    injection H as <-; reflexivity.
Qed.

(** X9: under the experimental mode, the assignment of an immutable
    compile-time constant to a local or temporary variable that is not
    logically shared, in a scope that allows forwarding, is dropped as soon
    as the trace of the previous pass shows no potential and no name uses:
    nothing stays when the variable had no value before, a tolerant [del]
    otherwise; and the constant is set as the replacement of the uses
    exactly when there are definite uses. *)
Theorem constant_assignment_is_dropped
  (g : Globals) (self : StatementAssignmentVariable)
  (cc : ConstraintCollection) (source : Expression)
  (cc1 : ConstraintCollection) (global_trace : GlobalVariableTrace)
  (last_trace before_last : VariableTrace)
  (analysed : computeExpression cc (av_source self) = (source, cc1))
  (source_returns : willRaiseException source BaseException = false)
  (constant_node : expression_kind source = EXPRESSION_OTHER)
  (constant : isCompileTimeConstant source = true)
  (immutable : isMutable source = false)
  (experimental : isExperimental g = true)
  (known :
     getGlobalVariableTrace g (getVariable (av_variable_ref self))
     = Some global_trace)
  (matching :
     getMatchingAssignTrace global_trace
       (assignment_with_trace self source cc1)
     = Some last_trace)
  (has_previous : getPrevious last_trace = Some before_last)
  (local_or_temp :
     isLocalVariable (getVariable (av_variable_ref self))
     || isTempVariable (getVariable (av_variable_ref self)) = true)
  (allowed : forwardingAllowed self = true)
  (not_shared : isSharedLogically (getVariable (av_variable_ref self)) = false)
  (no_potential_uses : hasPotentialUsages last_trace = false)
  (no_name_uses : hasNameUsages last_trace = false) :
  let r := StatementAssignmentVariable_computeStatement computeExpression
             g self cc in
  rule_outcome r
  = Returned
      (ReturnTriple
         (if isUninitTrace before_last then None
          else Some (STATEMENT_DEL_VARIABLE
                       (mkStatementDelVariable (av_variable_ref self) true
                          (av_source_ref self) None None)))
         new_statements
         (Some ("Dropped "
                ++ (if hasDefiniteUsages last_trace then "propagated"
                    else "dead")
                ++ " assignment statement to '"
                ++ getVariableName (av_variable_ref self) ++ "'.")))
  /\ getReplacementNode
       (getVariableCurrentTrace (rule_collection r)
          (getVariable (av_variable_ref self)))
     = if hasDefiniteUsages last_trace then Some source else None.
Proof.
  unfold assignment_with_trace, forwardingAllowed in *.
  unfold StatementAssignmentVariable_computeStatement, onExpression,
    dropAssignment.
  rewrite analysed; simpl. rewrite source_returns.
  unfold isReferenceTo. rewrite constant_node, andb_false_r.
  rewrite known. simpl. rewrite experimental.
  simpl in matching. rewrite matching.
  rewrite local_or_temp, constant, immutable. simpl.
  simpl in allowed. rewrite allowed.
  destruct (hasDefiniteUsages last_trace) eqn:D; simpl;
    rewrite no_potential_uses, no_name_uses, not_shared; simpl;
    rewrite has_previous; unfold rule_collection; simpl;
    rewrite PyVariable_eqb_refl;
    destruct (isUninitTrace before_last); simpl; split; reflexivity.
Qed.

(** X10: a function creation that is no compile-time constant is set as
    the replacement of the uses of the assigned variable only when the
    trace of the previous pass shows exactly one definite use, no
    potential and no name use, for a variable that is not logically
    shared; and the assignment is dropped only with at most one definite
    use. *)
Theorem function_forwarded_only_to_its_single_use
  (g : Globals) (self : StatementAssignmentVariable)
  (cc : ConstraintCollection) (source : Expression)
  (cc1 : ConstraintCollection) (function_body : FunctionBody)
  (defaults : list Expression) (kw_defaults annotations : option Expression)
  (analysed : computeExpression cc (av_source self) = (source, cc1))
  (source_returns : willRaiseException source BaseException = false)
  (is_function :
     expression_kind source
     = EXPRESSION_FUNCTION_CREATION function_body defaults kw_defaults
         annotations)
  (no_constant : isCompileTimeConstant source = false) :
  let variable := getVariable (av_variable_ref self) in
  let r := StatementAssignmentVariable_computeStatement computeExpression
             g self cc in
  let gating (uses : nat -> Prop) :=
    isSharedLogically variable = false
    /\ isPlainFunctionCreation source = true
    /\ exists global_trace last_trace,
        getGlobalVariableTrace g variable = Some global_trace
        /\ getMatchingAssignTrace global_trace
             (assignment_with_trace self source cc1)
           = Some last_trace
        /\ uses (getDefiniteUsages (trace_usages last_trace))
        /\ hasPotentialUsages last_trace = false
        /\ hasNameUsages last_trace = false in
  (assignmentDropped (rule_outcome r) = true -> gating (fun n => n <= 1))
  /\ (forall t node,
         av_variable_trace (rule_self r) = Some t ->
         getReplacementNode t = Some node ->
         node = source /\ gating (fun n => n = 1)).
Proof.
  unfold assignment_with_trace.
  unfold StatementAssignmentVariable_computeStatement, onExpression,
    dropAssignment.
  rewrite analysed; simpl. rewrite source_returns.
  unfold isReferenceTo. rewrite is_function, andb_false_r.
  destruct (getGlobalVariableTrace g (getVariable (av_variable_ref self)))
    as [global_trace|] eqn:G; simpl.
  2: { split; [discriminate|]. intros t node H. injection H as <-.
       discriminate. }
  destruct (isExperimental g) eqn:X; simpl.
  2: { split; [discriminate|]. intros t node H. injection H as <-.
       discriminate. }
  match goal with
  | |- context [getMatchingAssignTrace global_trace ?n] =>
      destruct (getMatchingAssignTrace global_trace n)
        as [last_trace|] eqn:L; simpl
  end.
  2: { split; [discriminate|]. intros t node H. injection H as <-.
       discriminate. }
  rewrite no_constant.
  repeat match goal with
    | |- context [if ?b then _ else _] =>
        let B := fresh "B" in destruct b eqn:B; simpl
    | |- context [match getPrevious ?t with _ => _ end] =>
        destruct (getPrevious t); simpl
    end;
    unfold rule_outcome, rule_self; simpl;
    (split;
     [ intros H; try discriminate H
     | intros t node H; injection H as <-; simpl; intros H;
       try discriminate H; injection H as <- ]);
    repeat match goal with
      | H : _ && _ = true |- _ => apply andb_prop in H; destruct H
      | H : negb _ = true |- _ => apply negb_true_iff in H
      | H : Nat.leb _ _ = true |- _ => apply Nat.leb_le in H
      | H : Nat.eqb _ _ = true |- _ => apply Nat.eqb_eq in H
      end;
    repeat split; eauto 10.
Qed.

End AssignmentVariable.

(** ** Deleting a variable, beyond the claims *)

(** X11: once the rule has run on a [del] that is not tolerant, of a
    variable that is not technically shared, the statement is returned as
    it is and may raise exactly when the variable is no temporary and the
    trace it had before the [del] is not known to hold a value. *)
Theorem del_may_raise_after_the_rule
  (self : StatementDelVariable) (cc : ConstraintCollection)
  (exception_type : ExceptionType)
  (not_tolerant : dv_tolerant self = false)
  (not_shared :
     isSharedTechnically (getVariable (dv_variable_ref self)) = false) :
  let variable := getVariable (dv_variable_ref self) in
  let r := StatementDelVariable_computeStatement self cc in
  rule_outcome r
  = Returned
      (ReturnTriple (Some (STATEMENT_DEL_VARIABLE (rule_self r))) tag_none
         None)
  /\ StatementDelVariable_mayRaiseException (rule_self r) exception_type
     = negb (isTempVariable variable
             || mustHaveValue (getVariableCurrentTrace cc variable)).
Proof.
  unfold StatementDelVariable_computeStatement, isTolerant,
    StatementDelVariable_mayRaiseException, onVariableDel.
  simpl. rewrite not_tolerant. simpl.
  rewrite not_tolerant, not_shared. simpl.
  split; [reflexivity|].
  destruct (isTempVariable (getVariable (dv_variable_ref self))); simpl;
    [reflexivity|].
  now destruct (mustHaveValue _).
Qed.

(** ** The further properties at sample statements *)

Lemma change_noted_iff_statement_replaced_witness :
  tag_none = tag_none <-> @None string = None.
Proof.
  exact (proj2 (@change_noted_iff_statement_replaced analysed_already
                  no_globals
                  (STATEMENT_DEL_VARIABLE (del_of local_x false None None))
                  fresh_collection _ _ _ _ eq_refl eq_refl)).
Defined.

Lemma raising_source_strips_the_assignment_witness :
  exists r,
    computeStatement analysed_already no_globals
      (STATEMENT_ASSIGNMENT_SLICE
         (mkStatementAssignmentSlice (plain_expression true)
            constant_expression None (Some (plain_expression true)) 1))
      fresh_collection
    = Some r
    /\ rule_collection r = fresh_collection.
Proof.
  destruct (@raising_source_strips_the_assignment analysed_already
              no_globals
              (STATEMENT_ASSIGNMENT_SLICE
                 (mkStatementAssignmentSlice (plain_expression true)
                    constant_expression None (Some (plain_expression true))
                    1))
              fresh_collection _ _ _ eq_refl eq_refl eq_refl)
    as (r & description & ran & _ & collection & _).
  exists r. split; assumption.
Defined.

Lemma analysed_already_keeps_escape_flag :
  keeps_escape_flag analysed_already.
Proof. intros cc e. reflexivity. Qed.

Lemma escape_recorded_only_for_a_kept_statement_witness :
  escaped
    (rule_collection
       (as_kind STATEMENT_DEL_SUBSCRIPT
          (StatementDelSubscript_computeStatement analysed_already
             (mkStatementDelSubscript constant_expression
                constant_expression 1)
             fresh_collection)))
  = true.
Proof.
  exact (proj2 (@escape_recorded_only_for_a_kept_statement analysed_already
                  no_globals
                  (STATEMENT_DEL_SUBSCRIPT
                     (mkStatementDelSubscript constant_expression
                        constant_expression 1))
                  fresh_collection _ analysed_already_keeps_escape_flag
                  eq_refl eq_refl) eq_refl).
Defined.

Lemma raise_keeps_the_analysed_prefix_witness :
  exists prefix raising,
    (prefix ++ [raising])%list
    = [plain_expression false; constant_expression; plain_expression true].
Proof.
  assert (bounds :
            getLower (STATEMENT_ASSIGNMENT_SLICE slice_assignment_sample)
            = None ->
            getUpper (STATEMENT_ASSIGNMENT_SLICE slice_assignment_sample)
            = None)
    by (intros H; discriminate H).
  destruct (@raise_keeps_the_analysed_prefix analysed_already no_globals
              (STATEMENT_ASSIGNMENT_SLICE slice_assignment_sample)
              fresh_collection _ _ _ bounds eq_refl eq_refl)
    as (prefix & raising & statement' & H1 & H2 & _).
  exists prefix, raising.
  injection H1 as <-. simpl in H2. now injection H2.
Defined.

Lemma mutation_kept_iff_nothing_raises_witness :
  isKept
    (as_kind STATEMENT_ASSIGNMENT_ATTRIBUTE
       (StatementAssignmentAttribute_computeStatement analysed_already
          (mkStatementAssignmentAttribute constant_expression
             constant_expression "a" 1)
          fresh_collection)).
Proof.
  exact (proj2 (@mutation_kept_iff_nothing_raises analysed_already
                  no_globals
                  (STATEMENT_ASSIGNMENT_ATTRIBUTE
                     (mkStatementAssignmentAttribute constant_expression
                        constant_expression "a" 1))
                  fresh_collection _ eq_refl eq_refl) eq_refl).
Defined.

Lemma rules_return_contract_triples_witness :
  fulfils_return_contract
    (ReturnTriple None new_statements
       (Some "Uninitialized variable 'x' is not released."))
  = true.
Proof.
  refine (@rules_return_contract_triples analysed_already no_globals
            (STATEMENT_RELEASE_VARIABLE
               (mkStatementReleaseVariable local_x 1 None))
            fresh_collection _ _ _ eq_refl eq_refl).
  intros s H. discriminate H.
Defined.

Lemma side_effects_promoted_to_statements_witness :
  av_source
    (rule_self
       (StatementAssignmentVariable_computeStatement analysed_already
          no_globals (assignment_of side_effects_expression local_x)
          fresh_collection))
  = constant_expression.
Proof.
  exact (proj1 (proj2 (@side_effects_promoted_to_statements
                         analysed_already no_globals
                         (assignment_of side_effects_expression local_x)
                         fresh_collection _ _ _ _ eq_refl eq_refl eq_refl))).
Defined.

Lemma kept_assignment_records_its_trace_witness :
  StatementAssignmentVariable_needsReleaseValue
    (rule_self
       (StatementAssignmentVariable_computeStatement analysed_already
          no_globals (assignment_of constant_expression local_x)
          fresh_collection))
  = Returned (Some false).
Proof.
  exact (proj2 (proj2 (proj2 (proj2
           (@kept_assignment_records_its_trace analysed_already no_globals
              (assignment_of constant_expression local_x) fresh_collection
              _ _ eq_refl eq_refl eq_refl eq_refl (or_introl eq_refl)))))).
Defined.

Lemma replacement_del_is_tolerant_witness :
  StatementDelVariable_mayRaiseException
    (mkStatementDelVariable (target_of local_x) true 1 None None)
    BaseException
  = false.
Proof.
  exact (proj2 (proj2 (proj2 (proj2
           (@replacement_del_is_tolerant analysed_already
              (registry_after_value (mkUsages 1 0 0))
              (assignment_of constant_expression local_x) fresh_collection
              _ _ _ eq_refl)))) BaseException).
Defined.

Lemma statement_trace_is_current_trace_witness :
  getVariableCurrentTrace
    (rule_collection
       (StatementAssignmentVariable_computeStatement analysed_already
          (registry_with (mkUsages 1 1 0))
          (assignment_of constant_expression local_x) fresh_collection))
    local_x
  = Assigned no_usages (Some constant_expression) (Uninit no_usages).
Proof.
  exact (@statement_trace_is_current_trace analysed_already
           (registry_with (mkUsages 1 1 0))
           (assignment_of constant_expression local_x) fresh_collection
           _ eq_refl eq_refl).
Defined.

Lemma constant_assignment_is_dropped_witness :
  getReplacementNode
    (getVariableCurrentTrace
       (rule_collection
          (StatementAssignmentVariable_computeStatement analysed_already
             (registry_after_value (mkUsages 3 0 0))
             (assignment_of constant_expression local_x) fresh_collection))
       local_x)
  = Some constant_expression.
Proof.
  exact (proj2 (@constant_assignment_is_dropped analysed_already
                  (registry_after_value (mkUsages 3 0 0))
                  (assignment_of constant_expression local_x)
                  fresh_collection _ _ _ _ _
                  eq_refl eq_refl eq_refl eq_refl eq_refl eq_refl eq_refl
                  eq_refl eq_refl eq_refl eq_refl eq_refl eq_refl eq_refl)).
Defined.

Lemma function_forwarded_only_to_its_single_use_witness :
  isSharedLogically local_x = false.
Proof.
  exact (proj1 (proj1 (@function_forwarded_only_to_its_single_use
                         analysed_already (registry_with (mkUsages 1 0 0))
                         (assignment_of function_expression local_x)
                         fresh_collection _ _ _ _ _ _
                         eq_refl eq_refl eq_refl eq_refl) eq_refl)).
Defined.

Lemma del_may_raise_after_the_rule_witness :
  StatementDelVariable_mayRaiseException
    (rule_self
       (StatementDelVariable_computeStatement
          (del_of local_x false None None) fresh_collection))
    BaseException
  = true.
Proof.
  exact (proj2 (@del_may_raise_after_the_rule
                  (del_of local_x false None None) fresh_collection
                  BaseException eq_refl eq_refl)).
Defined.

Lemma children_after_the_raise_are_untouched_witness :
  skipn 3
    (expression_children
       (rule_self
          (as_kind STATEMENT_ASSIGNMENT_SLICE
             (StatementAssignmentSlice_computeStatement analysed_already
                slice_assignment_sample fresh_collection))))
  = [plain_expression false].
Proof.
  assert (bounds :
            getLower (STATEMENT_ASSIGNMENT_SLICE slice_assignment_sample)
            = None ->
            getUpper (STATEMENT_ASSIGNMENT_SLICE slice_assignment_sample)
            = None)
    by (intros H; discriminate H).
  exact (proj2 (@children_after_the_raise_are_untouched analysed_already
                  no_globals
                  (STATEMENT_ASSIGNMENT_SLICE slice_assignment_sample)
                  fresh_collection _ _ _ _ bounds eq_refl eq_refl eq_refl)).
Defined.
